(** * tk-framework-gdn: the GDN bridge ([python/tk_framework_gdn/gdn_bridge.py])

    A shallow embedding of the bridge module: the [timeout] decorator, the
    [GDNBridge] class (class attributes, constructor, outbound senders, host
    queries, inbound forwarding handlers) and the properties its
    specification states about them.

    Conventions.
    - Python values are the inductive [pyval]; floats are IEEE binary64
      values ([spec_float] with precision 53 and maximal exponent 1024).
    - Python exceptions are values of [exn]; a computation that may raise
      returns a [result].  Only subclasses of [Exception] are modelled
      (asynchronous signals such as KeyboardInterrupt are not).
    - Effects (the logger, the transport, Qt signals, timers and their
      threads, the monotonic clock) are fields of [world]; a method is a
      function [M A := world -> result A * world].
    - Time is counted in integer nanoseconds, the unit CPython 3 converts
      lock time-outs to. *)

From Stdlib Require Import ZArith List String Ascii Bool Lia SpecFloat DecimalString.
From stdpp Require Import base option list gmap strings.

Local Open Scope string_scope.
Local Open Scope Z_scope.

(** ** Exceptions and results *)

(** The exception classes the module can meet.  Built-in exceptions are
    identified by their class; [RPCTimeoutError] (defined at the end of
    the module) and [RuntimeError] carry their message. *)
Inductive exn : Type :=
| ValueError
| TypeError
| OverflowError
| AttributeError
| RuntimeError (msg : string)
| RPCTimeoutError (msg : string).

Inductive result (A : Type) : Type :=
| Ok (a : A)
| Raise (e : exn).
Arguments Ok {A} a.
Arguments Raise {A} e.

(** ** Python values *)

Definition prec : Z := 53.
Definition emax : Z := 1024.

#[local] Set Warnings "-register-all".
Inductive pyval : Type :=
| PyNone
| PyBool (b : bool)
| PyInt (n : Z)
| PyFloat (f : spec_float)
| PyStr (s : string)
| PyList (l : list pyval)
| PyDict (items : list (pyval * pyval))
| PyObject (cls : string).
#[local] Set Warnings "register-all".

(** The float nearest to an integer (round to nearest, ties to even). *)
Definition float_of_Z (n : Z) : spec_float := binary_normalize prec emax n 0 false.

(** The float literals of the class body. *)
Definition f300_0 : spec_float := Eval vm_compute in float_of_Z 300.
Definition f0_5 : spec_float := Eval vm_compute in binary_normalize prec emax 1 (-1) false.

(** ** The Python runtime the module calls into

    The text conversions behind [float(str)] and [int(str)], and the JSON
    codec ([sgtk.util.json.loads], [json.dumps]) are library code.  The
    bridge is written against this interface; [CPython] below is an
    executable instance. *)
Class PyRuntime : Type := {
  float_of_str : string -> option spec_float;
  int_of_str : string -> option Z;
  json_loads : string -> result pyval;
  json_dumps : pyval -> result string
}.

(** [math.trunc] of a finite float, towards zero. *)
Definition float_trunc (s : bool) (m : positive) (e : Z) : Z :=
  let q := if 0 <=? e then Zpos m * 2 ^ e else Zpos m / 2 ^ (- e) in
  if s then - q else q.

Section Builtins.
Context `{PyRuntime}.

(** [float(x)] *)
Definition py_float (x : pyval) : result spec_float :=
  match x with
  | PyFloat f => Ok f
  | PyInt n =>
      match float_of_Z n with
      | S754_infinity _ => Raise OverflowError
      | f => Ok f
      end
  | PyBool b => Ok (float_of_Z (if b then 1 else 0))
  | PyStr s =>
      match float_of_str s with
      | Some f => Ok f
      | None => Raise ValueError
      end
  | PyNone | PyList _ | PyDict _ | PyObject _ => Raise TypeError
  end.

(** [int(x)] *)
Definition py_int (x : pyval) : result Z :=
  match x with
  | PyInt n => Ok n
  | PyBool b => Ok (if b then 1 else 0)
  | PyFloat f =>
      match f with
      | S754_nan => Raise ValueError
      | S754_infinity _ => Raise OverflowError
      | S754_zero _ => Ok 0
      | S754_finite s m e => Ok (float_trunc s m e)
      end
  | PyStr s =>
      match int_of_str s with
      | Some n => Ok n
      | None => Raise ValueError
      end
  | PyNone | PyList _ | PyDict _ | PyObject _ => Raise TypeError
  end.
End Builtins.

(** [d.get(key)] for a string key: the value stored under that key, or
    [None]; on anything but a dict the attribute lookup fails. *)
Definition key_is (k : string) (entry : pyval * pyval) : bool :=
  match fst entry with
  | PyStr k' => String.eqb k k'
  | _ => false
  end.

Definition dict_get (items : list (pyval * pyval)) (k : string) : pyval :=
  match List.find (key_is k) items with
  | Some (_, v) => v
  | None => PyNone
  end.

Definition py_get (x : pyval) (k : string) : result pyval :=
  match x with
  | PyDict items => Ok (dict_get items k)
  | _ => Raise AttributeError
  end.

(** [six.ensure_str] *)
Definition ensure_str (x : pyval) : result string :=
  match x with
  | PyStr s => Ok s
  | _ => Raise TypeError
  end.

(** ** The world: logger, transport, signals, timers, clock *)

(** A logging call.  The text handed to the logger is a format string
    applied with [%] to at most one value; the rendering of that value is
    not needed here and is kept symbolic. *)
Inductive log_level : Type := DEBUG | WARNING.
Inductive logger_name : Type := self_logger | module_logger.

Record log_record : Type := LogRecord {
  lr_logger : logger_name;
  lr_level : log_level;
  lr_format : string;
  lr_arg : option pyval
}.

(** The Qt signals of [MessageEmitter], with the arguments of an [emit]. *)
Inductive qt_signal : Type :=
| logging_received (level message : pyval)
| command_received (uid : Z)
| run_tests_request_received
| state_requested
| active_document_changed (path : pyval)
| gdn_hwnd (hwnd : Z).

(** The bound methods registered with [self._io.on]. *)
Inductive handler : Type :=
| forward_logging
| forward_command
| forward_run_tests
| forward_state_request
| forward_active_document_changed
| forward_gdn_hwnd.

(** A [threading.Timer] and its thread. [Waiting d]: the thread sleeps in
    [finished.wait] until the clock reaches [d]; [Fired]: the wait ran out
    and the function was called; [Cancelled]: [finished] was set first;
    [Crashed]: the wait itself raised in the thread. *)
Inductive timer_state : Type :=
| Created
| Waiting (deadline : Z)
| Fired
| Cancelled
| Crashed.

Record timer : Type := Timer {
  tm_interval : spec_float;
  tm_function : result unit;
  tm_state : timer_state
}.

Record world : Type := World {
  w_clock : Z;                                (* monotonic clock, ns *)
  w_timers : list timer;                      (* every Timer created so far *)
  w_thread_errors : list exn;                 (* exceptions that ended a timer thread *)
  w_tie_fires : bool;                         (* scheduler: who wins when a wait ends
                                                 at the very instant of a cancel *)
  w_calls : nat;                              (* invocations of guarded callables *)
  w_log : list log_record;                    (* logging output, oldest first *)
  w_sent : list (string * option string);     (* self._io.emit, oldest first *)
  w_signals : list qt_signal;                 (* signal emissions, oldest first *)
  w_handlers : gmap string handler            (* self._io.on registrations *)
}.

Definition set_clock (c : Z) (w : world) : world :=
  World c (w_timers w) (w_thread_errors w) (w_tie_fires w) (w_calls w)
        (w_log w) (w_sent w) (w_signals w) (w_handlers w).
Definition set_timers (ts : list timer) (w : world) : world :=
  World (w_clock w) ts (w_thread_errors w) (w_tie_fires w) (w_calls w)
        (w_log w) (w_sent w) (w_signals w) (w_handlers w).
Definition set_thread_errors (es : list exn) (w : world) : world :=
  World (w_clock w) (w_timers w) es (w_tie_fires w) (w_calls w)
        (w_log w) (w_sent w) (w_signals w) (w_handlers w).
Definition set_calls (n : nat) (w : world) : world :=
  World (w_clock w) (w_timers w) (w_thread_errors w) (w_tie_fires w) n
        (w_log w) (w_sent w) (w_signals w) (w_handlers w).
Definition set_log (l : list log_record) (w : world) : world :=
  World (w_clock w) (w_timers w) (w_thread_errors w) (w_tie_fires w) (w_calls w)
        l (w_sent w) (w_signals w) (w_handlers w).
Definition set_sent (l : list (string * option string)) (w : world) : world :=
  World (w_clock w) (w_timers w) (w_thread_errors w) (w_tie_fires w) (w_calls w)
        (w_log w) l (w_signals w) (w_handlers w).
Definition set_signals (l : list qt_signal) (w : world) : world :=
  World (w_clock w) (w_timers w) (w_thread_errors w) (w_tie_fires w) (w_calls w)
        (w_log w) (w_sent w) l (w_handlers w).
Definition set_handlers (h : gmap string handler) (w : world) : world :=
  World (w_clock w) (w_timers w) (w_thread_errors w) (w_tie_fires w) (w_calls w)
        (w_log w) (w_sent w) (w_signals w) h.

(** ** The monad of methods *)

Definition M (A : Type) : Type := world -> result A * world.

Definition ret {A} (a : A) : M A := fun w => (Ok a, w).
Definition bind {A B} (c : M A) (k : A -> M B) : M B :=
  fun w =>
    match c w with
    | (Ok a, w') => k a w'
    | (Raise e, w') => (Raise e, w')
    end.
Definition lift {A} (r : result A) : M A := fun w => (r, w).

Notation "x <- c ;; k" := (bind c (fun x => k))
  (at level 100, c at next level, right associativity).
Notation "c ;;; k" := (bind c (fun _ => k))
  (at level 100, right associativity).

(** [try: body finally: cleanup]: the clean-up runs on both exits; the
    outcome of the body stands unless the clean-up itself raises. *)
Definition try_finally {A} (body : M A) (cleanup : M unit) : M A :=
  fun w =>
    let '(r, w1) := body w in
    match cleanup w1 with
    | (Ok _, w2) => (r, w2)
    | (Raise e, w2) => (Raise e, w2)
    end.

(** [try: body except Exception: handler] *)
Definition try_except {A} (body : M A) (handler : exn -> M A) : M A :=
  fun w =>
    match body w with
    | (Ok a, w1) => (Ok a, w1)
    | (Raise e, w1) => handler e w1
    end.

Definition log_call (l : logger_name) (lv : log_level) (fmt : string)
    (arg : option pyval) : M unit :=
  fun w => (Ok tt, set_log (w_log w ++ [LogRecord l lv fmt arg]) w).

(** [self._io.emit(name)] and [self._io.emit(name, data)].  The
    transport is taken to accept every message. *)
Definition io_emit (name : string) (data : option string) : M unit :=
  fun w => (Ok tt, set_sent (w_sent w ++ [(name, data)]) w).

(** [self._io.on(name, callback)] *)
Definition io_on (name : string) (h : handler) : M unit :=
  fun w => (Ok tt, set_handlers (<[name := h]> (w_handlers w)) w).

(** [signal.emit(...)], with the arguments as they are passed; what Qt
    makes of them is not followed. *)
Definition signal_emit (s : qt_signal) : M unit :=
  fun w => (Ok tt, set_signals (w_signals w ++ [s]) w).

(** ** [threading.Timer] *)

(** What [finished.wait(interval)] does with its time-out (CPython 3.11
    on a 64-bit platform): a time-out that is not positive (a NaN is
    not) polls without blocking; a positive one is multiplied by 1e9 as
    a float and rounded up to a whole number of nanoseconds.  The wait
    is refused in the thread with OverflowError when that number is
    beyond the signed 64-bit time type, and with ValueError when it is
    exactly 2 ^ 63, which the conversion wraps to a negative time. *)
Inductive wait_arg : Type :=
| WaitNow
| WaitFor (ns : Z)
| WaitRefused (e : exn).

Definition PyTime_MAX : Z := 2 ^ 63 - 1.

Definition f1e9 : spec_float := Eval vm_compute in float_of_Z 1000000000.

(** The least integer not below a positive finite float. *)
Definition float_ceil (m : positive) (e : Z) : Z :=
  if 0 <=? e then Zpos m * 2 ^ e else - ((- Zpos m) / 2 ^ (- e)).

(** The nanoseconds of a positive finite number of seconds.  A product
    beyond the floats counts as [2 ^ 1024]. *)
Definition seconds_to_ns (m : positive) (e : Z) : Z :=
  match SFmul prec emax (S754_finite false m e) f1e9 with
  | S754_finite _ m' e' => float_ceil m' e'
  | S754_zero _ => 0
  | _ => 2 ^ 1024
  end.

Definition wait_timeout (interval : spec_float) : wait_arg :=
  match interval with
  | S754_nan | S754_zero _ | S754_infinity true | S754_finite true _ _ => WaitNow
  | S754_infinity false => WaitRefused OverflowError
  | S754_finite false m e =>
      let ns := seconds_to_ns m e in
      if ns <=? PyTime_MAX then WaitFor ns
      else if ns =? 2 ^ 63 then WaitRefused ValueError
      else WaitRefused OverflowError
  end.

Definition set_state (st : timer_state) (t : timer) : timer :=
  Timer (tm_interval t) (tm_function t) st.

(** [Timer(interval, function)]: the new timer's index in [w_timers]. *)
Definition Timer_new (interval : spec_float) (function : result unit) : M nat :=
  fun w => (Ok (length (w_timers w)),
            set_timers (w_timers w ++ [Timer interval function Created]) w).

(** [timer.start()]: the thread enters [finished.wait(interval)]. *)
Definition Timer_start (i : nat) : M unit :=
  fun w =>
    match w_timers w !! i with
    | Some t =>
        match tm_state t with
        | Created =>
            match wait_timeout (tm_interval t) with
            | WaitNow =>
                (Ok tt, set_timers (<[i := set_state (Waiting (w_clock w)) t]> (w_timers w)) w)
            | WaitFor ns =>
                (Ok tt, set_timers (<[i := set_state (Waiting (w_clock w + ns)) t]> (w_timers w)) w)
            | WaitRefused e =>
                (Ok tt, set_thread_errors (w_thread_errors w ++ [e])
                          (set_timers (<[i := set_state Crashed t]> (w_timers w)) w))
            end
        | _ => (Raise (RuntimeError "threads can only be started once"), w)
        end
    | None => (Raise (RuntimeError "no such timer"), w)
    end.

(** [timer.cancel()]: sets [finished]; it stops a timer that still waits
    and does nothing to one whose thread is over. *)
Definition cancel_state (st : timer_state) : timer_state :=
  match st with
  | Created | Waiting _ => Cancelled
  | st => st
  end.

Definition Timer_cancel (i : nat) : M unit :=
  fun w => (Ok tt, set_timers (alter (fun t => set_state (cancel_state (tm_state t)) t) i (w_timers w)) w).

(** The passing of time.  A waiting timer whose deadline is behind the
    clock has run out: its thread finds [finished] unset and calls the
    function.  An exception the function raises is raised in the timer's
    thread and ends that thread; it is reported by the threading
    machinery and reaches no other thread. *)
Definition expired (tie : bool) (now : Z) (t : timer) : bool :=
  match tm_state t with
  | Waiting d => (d <? now) || ((d =? now) && tie)
  | _ => false
  end.

Definition thread_error (t : timer) : list exn :=
  match tm_function t with
  | Raise e => [e]
  | Ok _ => []
  end.

Definition run_thread (tie : bool) (now : Z) (t : timer) : timer :=
  if expired tie now t then set_state Fired t else t.

Definition run_errors (tie : bool) (now : Z) (t : timer) : list exn :=
  if expired tie now t then thread_error t else [].

Definition advance (dt : Z) (w : world) : world :=
  let now := w_clock w + dt in
  let tie := w_tie_fires w in
  set_clock now
    (set_thread_errors (w_thread_errors w ++ flat_map (run_errors tie now) (w_timers w))
       (set_timers (map (run_thread tie now) (w_timers w)) w)).

(** ** Guarded callables

    The decorated callables of this module ([Communicator.ping] and
    [Communicator._wait_for_response], from [rpc.py]) block the calling
    thread and then return or raise.  One invocation is described by how
    long it blocks and how it ends. *)
Record call (A : Type) : Type := Call {
  call_elapsed : Z;
  call_outcome : result A
}.
Arguments Call {A} _ _.
Arguments call_elapsed {A} _.
Arguments call_outcome {A} _.

Definition invoke {A} (func : call A) : M A :=
  fun w => (call_outcome func,
            advance (call_elapsed func) (set_calls (S (w_calls w)) w)).

(** ** [timeout] *)

Section Timeout.
Context `{PyRuntime}.

Definition _handle_timeout (error_message : string) : result unit :=
  Raise (RPCTimeoutError error_message).

(** A call of [timeout(seconds, error_message)(func)]: the body of
    [wrapper]. *)
Definition timeout {A} (seconds : pyval) (error_message : string)
    (func : call A) : M A :=
  interval <- lift (py_float seconds) ;;
  timer <- Timer_new interval (_handle_timeout error_message) ;;
  result <- try_finally (Timer_start timer ;;; invoke func) (Timer_cancel timer) ;;
  ret result.
End Timeout.

(** ** The base class and the host application

    [Communicator] (module [rpc]) and the objects of the host application
    reached through [self.app] are not part of this module.  What the
    bridge uses of them is taken as given: the base constructor, the two
    blocking calls that the bridge guards, what entering and leaving the
    context manager [response_logging_silenced] do, and the host
    accessors.  An attribute of a host object is described by what
    reading it gives in the execution at hand: a value, or an
    exception. *)
Record file_object : Type := FileObject {
  fsName : result pyval
}.

Record document : Type := Document {
  fullName : result file_object
}.

Record Communicator : Type := {
  Communicator_init : M unit;
  Communicator_ping : call unit;
  Communicator_wait_for_response : Z -> call pyval;
  silence_enter : world -> world;
  silence_exit : world -> world;
  activeDocument : result (option document)
}.

(** [with self.response_logging_silenced(): body], by the protocol of
    [with]: the entry, the body, and the exit on either way out of the
    body.  The context manager is taken neither to raise nor to suppress
    an exception of the body. *)
Definition response_logging_silenced {A} (b : Communicator) (body : M A) : M A :=
  fun w =>
    let '(r, w1) := body (silence_enter b w) in
    (r, silence_exit b w1).

(** ** [GDNBridge] *)

(** [os.environ.get(key, default)] *)
Definition environ_get (environ : gmap string string) (key : string)
    (default : pyval) : pyval :=
  match environ !! key with
  | Some v => PyStr v
  | None => default
  end.

(** The class attributes, evaluated once, when the class body runs. *)
Record GDNBridge_class : Type := {
  SHOTGUN_GDN_RESPONSE_TIMEOUT : pyval;
  SHOTGUN_GDN_HEARTBEAT_TIMEOUT : pyval
}.

Definition GDNBridge_class_body (environ : gmap string string) : GDNBridge_class :=
  {| SHOTGUN_GDN_RESPONSE_TIMEOUT :=
       environ_get environ "SHOTGUN_GDN_RESPONSE_TIMEOUT" (PyFloat f300_0);
     SHOTGUN_GDN_HEARTBEAT_TIMEOUT :=
       environ_get environ "SHOTGUN_GDN_HEARTBEAT_TIMEOUT" (PyFloat f0_5) |}.

Record GDNBridge : Type := {
  cls : GDNBridge_class;
  base : Communicator
}.

Section Bridge.
Context `{PyRuntime}.
Variable self : GDNBridge.

(** The constructor.  Creating the [MessageEmitter] has no effect that
    is followed here. *)
Definition __init__ : M unit :=
  Communicator_init (base self) ;;;
  log_call self_logger DEBUG "SHOTGUN_GDN_RESPONSE_TIMEOUT is %s"
    (Some (SHOTGUN_GDN_RESPONSE_TIMEOUT (cls self))) ;;;
  log_call self_logger DEBUG "SHOTGUN_GDN_HEARTBEAT_TIMEOUT is %s"
    (Some (SHOTGUN_GDN_HEARTBEAT_TIMEOUT (cls self))) ;;;
  log_call self_logger DEBUG "Setting up event connections" None ;;;
  io_on "logging" forward_logging ;;;
  io_on "command" forward_command ;;;
  io_on "run_tests" forward_run_tests ;;;
  io_on "state_requested" forward_state_request ;;;
  io_on "active_document_changed" forward_active_document_changed ;;;
  io_on "gdn_hwnd" forward_gdn_hwnd.

(** *** Public methods *)

Definition ping : M unit :=
  timeout (SHOTGUN_GDN_HEARTBEAT_TIMEOUT (cls self)) "Ping timed out."
    (Communicator_ping (base self)).

Definition get_active_document : M (option document) :=
  response_logging_silenced (base self)
    (try_except (lift (activeDocument (base self)))
       (fun _ =>
          log_call module_logger WARNING "Failed to get Active Document from GDN" None ;;;
          ret None)).

Definition get_active_document_path : M (option string) :=
  doc <- get_active_document ;;
  match doc with
  | None => ret None
  | Some doc =>
      response_logging_silenced (base self)
        (path <- try_except (f <- lift (fullName doc) ;; lift (fsName f))
                   (fun _ => ret PyNone) ;;
         match path with
         | PyNone => ret None
         | _ => s <- lift (ensure_str path) ;; ret (Some s)
         end)
  end.

(** [{"level": level, "msg": msg}], the dict [log_message] encodes. *)
Definition log_data (level msg : pyval) : pyval :=
  PyDict [(PyStr "level", level); (PyStr "msg", msg)].

Definition log_message (level msg : pyval) : M unit :=
  json_log_data <- lift (json_dumps (log_data level msg)) ;;
  io_emit "log_message" (Some json_log_data).

Definition send_commands (commands : pyval) : M unit :=
  json_commands <- lift (json_dumps commands) ;;
  log_call self_logger DEBUG "Sending commands: %s" (Some (PyStr json_commands)) ;;;
  io_emit "set_commands" (Some json_commands).

Definition send_context_display (context_display : pyval) : M unit :=
  json_context_display <- lift (json_dumps context_display) ;;
  log_call self_logger DEBUG "Sending context display." None ;;;
  io_emit "set_context_display" (Some json_context_display).

Definition send_context_thumbnail (context_thumbnail : pyval) : M unit :=
  json_context_thumbnail <- lift (json_dumps context_thumbnail) ;;
  log_call self_logger DEBUG "Sending context thumb path: %s"
    (Some (PyStr json_context_thumbnail)) ;;;
  io_emit "set_context_thumbnail" (Some json_context_thumbnail).

Definition send_log_file_path (log_file : pyval) : M unit :=
  json_file_path <- lift (json_dumps log_file) ;;
  log_call self_logger DEBUG "Sending log file path: %s" (Some (PyStr json_file_path)) ;;;
  io_emit "set_log_file_path" (Some json_file_path).

Definition send_unknown_context : M unit :=
  log_call self_logger DEBUG "Alerting js that there is no context" None ;;;
  io_emit "set_unknown_context" None.

Definition context_about_to_change : M unit :=
  log_call self_logger DEBUG "Sending context about to change message." None ;;;
  io_emit "context_about_to_change" None.

(** The body of [save_as] is a comment. *)
Definition save_as (doc : document) (file_path : string) : M unit := ret tt.

(** *** Internal methods *)

Definition _forward_active_document_changed (response : string) : M unit :=
  log_call self_logger DEBUG "Emitting active_document_changed signal." None ;;;
  response <- lift (json_loads response) ;;
  path <- lift (py_get response "active_document_path") ;;
  signal_emit (active_document_changed path).

Definition _forward_gdn_hwnd (response : string) : M unit :=
  log_call self_logger DEBUG "Emitting gdn_hwnd_changed signal." None ;;;
  response <- lift (json_loads response) ;;
  hwnd <- lift (py_int response) ;;
  signal_emit (gdn_hwnd hwnd).

Definition _forward_command (response : string) : M unit :=
  log_call self_logger DEBUG "Emitting command_received signal." None ;;;
  value <- lift (json_loads response) ;;
  uid <- lift (py_int value) ;;
  signal_emit (command_received uid).

Definition _forward_logging (response : string) : M unit :=
  response <- lift (json_loads response) ;;
  log_call self_logger DEBUG "Got logging command - forwarding to Qt %s" (Some response) ;;;
  level <- lift (py_get response "level") ;;
  message <- lift (py_get response "message") ;;
  signal_emit (logging_received level message).

Definition _forward_run_tests (response : string) : M unit :=
  log_call self_logger DEBUG "Emitting run_tests_request_received signal." None ;;;
  signal_emit run_tests_request_received.

Definition _forward_state_request (response : string) : M unit :=
  log_call self_logger DEBUG "Emitting state_requested signal." None ;;;
  signal_emit state_requested.

Definition _wait_for_response (uid : Z) : M pyval :=
  timeout (SHOTGUN_GDN_RESPONSE_TIMEOUT (cls self)) "Timed out waiting for response."
    (Communicator_wait_for_response (base self) uid).

(** *** The receive path

    The transport calls the callback registered for the name of an
    inbound message with the message's payload; an exception of the
    callback is an exception of the receive path. *)
Definition run_handler (h : handler) (response : string) : M unit :=
  match h with
  | forward_logging => _forward_logging response
  | forward_command => _forward_command response
  | forward_run_tests => _forward_run_tests response
  | forward_state_request => _forward_state_request response
  | forward_active_document_changed => _forward_active_document_changed response
  | forward_gdn_hwnd => _forward_gdn_hwnd response
  end.

Definition receive (name response : string) : M unit :=
  fun w =>
    match w_handlers w !! name with
    | Some h => run_handler h response w
    | None => (Ok tt, w)
    end.
End Bridge.

(** ** An executable runtime

    [float(str)], [int(str)], [json.loads] and [json.dumps] of CPython 3,
    on text given as its UTF-8 bytes.  Digits and white space outside
    ASCII, which [float] and [int] also accept, are not recognised, and
    neither the interpreter's limit on the length of integer literals nor
    its recursion limit is modelled. *)
Module CPythonRuntime.

Definition code (c : ascii) : Z := Z.of_N (N_of_ascii c).
Definition chr (n : Z) : ascii := ascii_of_N (Z.to_N n).

Definition is_digit (c : ascii) : bool := (48 <=? code c) && (code c <=? 57).
Definition digit_val (c : ascii) : Z := code c - 48.

(** White space stripped by [float] and [int]: tab to carriage return,
    and the space. *)
Definition is_space (c : ascii) : bool :=
  ((9 <=? code c) && (code c <=? 13)) || (code c =? 32).

Definition lower (c : ascii) : ascii :=
  if (65 <=? code c) && (code c <=? 90) then chr (code c + 32) else c.

Fixpoint lstrip (s : list ascii) : list ascii :=
  match s with
  | c :: s' => if is_space c then lstrip s' else s
  | [] => []
  end.

Definition strip (s : list ascii) : list ascii := rev (lstrip (rev (lstrip s))).

(** [true] for a leading minus; the sign, if any, is consumed. *)
Definition read_sign (s : list ascii) : bool * list ascii :=
  match s with
  | c :: s' =>
      if code c =? 45 then (true, s')
      else if code c =? 43 then (false, s')
      else (false, s)
  | [] => (false, [])
  end.

Definition starts_with_digit (s : list ascii) : bool :=
  match s with
  | c :: _ => is_digit c
  | [] => false
  end.

(** A run of digits; with [us], single underscores between two digits
    are accepted and dropped.  Returns the digits read and the rest. *)
Fixpoint read_digits (us : bool) (s : list ascii) : list Z * list ascii :=
  match s with
  | c :: s' =>
      if is_digit c then
        let '(ds, rest) :=
          match s' with
          | u :: s'' =>
              if us && (code u =? 95) && starts_with_digit s''
              then read_digits us s''
              else read_digits us s'
          | [] => ([], [])
          end in
        (digit_val c :: ds, rest)
      else ([], s)
  | [] => ([], [])
  end.

Definition digits_value (ds : list Z) : Z :=
  fold_left (fun acc d => 10 * acc + d) ds 0.

(** [int(s)] in base 10. *)
Definition int_of_chars (s : list ascii) : option Z :=
  let '(neg, s1) := read_sign (strip s) in
  match read_digits true s1 with
  | ((_ :: _) as ds, []) => Some (if neg then - digits_value ds else digits_value ds)
  | _ => None
  end.

(** The binary64 value nearest to [m * 10 ^ e10] (ties to even).  The
    two guards only cut short literals whose value is out of range. *)
Definition float_of_decimal (neg : bool) (m : Z) (e10 : Z) : spec_float :=
  match m with
  | Zpos p =>
      if 0 <=? e10 then
        if 1025 <=? Z.log2 m + 3 * e10 then S754_infinity neg
        else binary_normalize prec emax (if neg then - (m * 10 ^ e10) else m * 10 ^ e10) 0 neg
      else
        if Z.log2 m + 1 + 3 * e10 <=? -1076 then S754_zero neg
        else
          let '(q, e2, l) := SFdiv_core_binary prec emax m 0 (10 ^ (- e10)) 0 in
          binary_round_aux prec emax neg q e2 l
  | _ => S754_zero neg
  end.

Definition lower_all (s : list ascii) : list ascii := map lower s.

Definition chars (s : string) : list ascii := list_ascii_of_string s.

(** An exponent part, if one follows: [e] or [E], a sign, digits. *)
Definition read_exponent (us : bool) (s : list ascii) : option (Z * list ascii) :=
  match s with
  | c :: s1 =>
      if code (lower c) =? 101 then
        let '(neg, s2) := read_sign s1 in
        match read_digits us s2 with
        | ([], _) => None
        | (ds, rest) => Some (if neg then - digits_value ds else digits_value ds, rest)
        end
      else Some (0, s)
  | [] => Some (0, [])
  end.

(** A decimal numeral without sign: integer part, fraction, exponent,
    at least one digit before the exponent.  Returns the mantissa, the
    decimal exponent and the rest. *)
Definition read_decimal (us : bool) (s : list ascii) : option (Z * Z * list ascii) :=
  let '(ip, s1) := read_digits us s in
  let '(fp, s2) :=
    match s1 with
    | c :: s1' => if code c =? 46 then read_digits us s1' else ([], s1)
    | [] => ([], [])
    end in
  match (ip ++ fp)%list with
  | [] => None
  | ds =>
      match read_exponent us s2 with
      | Some (e, rest) => Some (digits_value ds, e - Z.of_nat (length fp), rest)
      | None => None
      end
  end.

(** [float(s)] *)
Definition float_of_chars (s : list ascii) : option spec_float :=
  let '(neg, s1) := read_sign (strip s) in
  let word := lower_all s1 in
  if bool_decide (word = chars "inf") || bool_decide (word = chars "infinity")
  then Some (S754_infinity neg)
  else if bool_decide (word = chars "nan") then Some S754_nan
  else
    match read_decimal true s1 with
    | Some (m, e, []) => Some (float_of_decimal neg m e)
    | _ => None
    end.

(** *** [json.loads] *)

Definition is_json_ws (c : ascii) : bool :=
  (code c =? 32) || (code c =? 9) || (code c =? 10) || (code c =? 13).

Fixpoint skip_ws (s : list ascii) : list ascii :=
  match s with
  | c :: s' => if is_json_ws c then skip_ws s' else s
  | [] => []
  end.

Fixpoint strip_prefix (p s : list ascii) : option (list ascii) :=
  match p, s with
  | [], _ => Some s
  | a :: p', b :: s' => if code a =? code b then strip_prefix p' s' else None
  | _ :: _, [] => None
  end.

Definition hex_val (c : ascii) : option Z :=
  let n := code c in
  if (48 <=? n) && (n <=? 57) then Some (n - 48)
  else if (97 <=? n) && (n <=? 102) then Some (n - 87)
  else if (65 <=? n) && (n <=? 70) then Some (n - 55)
  else None.

Definition read_hex4 (s : list ascii) : option (Z * list ascii) :=
  match s with
  | a :: b :: c :: d :: rest =>
      match hex_val a, hex_val b, hex_val c, hex_val d with
      | Some x, Some y, Some z, Some t => Some (((x * 16 + y) * 16 + z) * 16 + t, rest)
      | _, _, _, _ => None
      end
  | _ => None
  end.

(** The bytes of a code point in UTF-8; a lone surrogate is written
    with the same three-byte scheme. *)
Definition utf8_encode (cp : Z) : list ascii :=
  if cp <? 128 then [chr cp]
  else if cp <? 2048 then [chr (192 + cp / 64); chr (128 + cp mod 64)]
  else if cp <? 65536 then
    [chr (224 + cp / 4096); chr (128 + (cp / 64) mod 64); chr (128 + cp mod 64)]
  else
    [chr (240 + cp / 262144); chr (128 + (cp / 4096) mod 64);
     chr (128 + (cp / 64) mod 64); chr (128 + cp mod 64)].

Definition is_high_surrogate (cp : Z) : bool := (55296 <=? cp) && (cp <=? 56319).
Definition is_low_surrogate (cp : Z) : bool := (56320 <=? cp) && (cp <=? 57343).

Definition simple_escape (c : ascii) : option ascii :=
  let n := code c in
  if (n =? 34) || (n =? 92) || (n =? 47) then Some c
  else if n =? 98 then Some (chr 8)
  else if n =? 102 then Some (chr 12)
  else if n =? 110 then Some (chr 10)
  else if n =? 114 then Some (chr 13)
  else if n =? 116 then Some (chr 9)
  else None.

Definition prepend (pre : list ascii) (r : option (list ascii * list ascii))
    : option (list ascii * list ascii) :=
  match r with
  | Some (body, rest) => Some ((pre ++ body)%list, rest)
  | None => None
  end.

(** The second half of a surrogate pair, if the text goes on with one. *)
Definition read_low_surrogate (s : list ascii) : option (Z * list ascii) :=
  match s with
  | b :: u :: s' =>
      if (code b =? 92) && (code u =? 117) then
        match read_hex4 s' with
        | Some (c2, rest) => if is_low_surrogate c2 then Some (c2, rest) else None
        | None => None
        end
      else None
  | _ => None
  end.

(** A string literal after its opening quote: the text and the rest. *)
Fixpoint scan_string (fuel : nat) (s : list ascii) : option (list ascii * list ascii) :=
  match fuel with
  | O => None
  | S fuel =>
      match s with
      | [] => None
      | c :: s' =>
          if code c =? 34 then Some ([], s')
          else if code c =? 92 then
            match s' with
            | e :: s'' =>
                if code e =? 117 then
                  match read_hex4 s'' with
                  | Some (cp, s3) =>
                      if is_high_surrogate cp then
                        match read_low_surrogate s3 with
                        | Some (c2, s4) =>
                            prepend (utf8_encode (65536 + (cp - 55296) * 1024 + (c2 - 56320)))
                                    (scan_string fuel s4)
                        | None => prepend (utf8_encode cp) (scan_string fuel s3)
                        end
                      else prepend (utf8_encode cp) (scan_string fuel s3)
                  | None => None
                  end
                else
                  match simple_escape e with
                  | Some ch => prepend [ch] (scan_string fuel s'')
                  | None => None
                  end
            | [] => None
            end
          else if code c <=? 31 then None
          else prepend [c] (scan_string fuel s')
      end
  end.

Definition text (s : list ascii) : string := string_of_list_ascii s.

(** A number: an optional minus, an integer part (a lone zero, or
    digits not starting with zero), an optional fraction (a point and
    at least one digit) and an optional exponent (e or E, an optional
    sign, at least one digit).  It is an integer when it has neither
    fraction nor exponent. *)
Definition scan_number (s : list ascii) : option (pyval * list ascii) :=
  let '(neg, s1) :=
    match s with
    | c :: s' => if code c =? 45 then (true, s') else (false, s)
    | [] => (false, [])
    end in
  let '(ip, s2) :=
    match s1 with
    | c :: s1' =>
        if code c =? 48 then ([0], s1')
        else read_digits false s1
    | [] => ([], [])
    end in
  match ip with
  | [] => None
  | _ :: _ =>
      let '(fp, s3) :=
        match s2 with
        | c :: s2' =>
            if (code c =? 46) && starts_with_digit s2' then read_digits false s2'
            else ([], s2)
        | [] => ([], [])
        end in
      let '(ex, s4) :=
        match s3 with
        | c :: s3' =>
            if code (lower c) =? 101 then
              let '(eneg, s3'') :=
                match s3' with
                | g :: t =>
                    if code g =? 45 then (true, t)
                    else if code g =? 43 then (false, t)
                    else (false, s3')
                | [] => (false, [])
                end in
              match read_digits false s3'' with
              | ([], _) => (None, s3)
              | (ds, rest) => (Some (if eneg then - digits_value ds else digits_value ds), rest)
              end
            else (None, s3)
        | [] => (None, [])
        end in
      match fp, ex with
      | [], None => Some (PyInt (if neg then - digits_value ip else digits_value ip), s4)
      | _, _ =>
          Some (PyFloat (float_of_decimal neg (digits_value (ip ++ fp)%list)
                           (default 0 ex - Z.of_nat (length fp))), s4)
      end
  end.

(** [d[k] = v] on the items of a dict: a key already there keeps its
    place and takes the new value. *)
Fixpoint dict_set (items : list (pyval * pyval)) (k : string) (v : pyval)
    : list (pyval * pyval) :=
  match items with
  | [] => [(PyStr k, v)]
  | entry :: items' =>
      if key_is k entry then (PyStr k, v) :: items'
      else entry :: dict_set items' k v
  end.

Definition is_char (n : Z) (s : list ascii) : option (list ascii) :=
  match s with
  | c :: s' => if code c =? n then Some s' else None
  | [] => None
  end.

Fixpoint scan_value (fuel : nat) (s : list ascii) : option (pyval * list ascii) :=
  match fuel with
  | O => None
  | S fuel =>
      match s with
      | [] => None
      | c :: s' =>
          if code c =? 34 then
            match scan_string (length s) s' with
            | Some (body, rest) => Some (PyStr (text body), rest)
            | None => None
            end
          else if code c =? 123 then
            match is_char 125 (skip_ws s') with
            | Some rest => Some (PyDict [], rest)
            | None => scan_members fuel [] (skip_ws s')
            end
          else if code c =? 91 then
            match is_char 93 (skip_ws s') with
            | Some rest => Some (PyList [], rest)
            | None => scan_items fuel [] (skip_ws s')
            end
          else
            match strip_prefix (chars "null") s, strip_prefix (chars "true") s,
                  strip_prefix (chars "false") s with
            | Some rest, _, _ => Some (PyNone, rest)
            | _, Some rest, _ => Some (PyBool true, rest)
            | _, _, Some rest => Some (PyBool false, rest)
            | None, None, None =>
                match scan_number s with
                | Some r => Some r
                | None =>
                    match strip_prefix (chars "NaN") s, strip_prefix (chars "Infinity") s,
                          strip_prefix (chars "-Infinity") s with
                    | Some rest, _, _ => Some (PyFloat S754_nan, rest)
                    | _, Some rest, _ => Some (PyFloat (S754_infinity false), rest)
                    | _, _, Some rest => Some (PyFloat (S754_infinity true), rest)
                    | None, None, None => None
                    end
                end
            end
      end
  end
(** The elements of an array, from the first one on; [acc] holds the
    elements read so far. *)
with scan_items (fuel : nat) (acc : list pyval) (s : list ascii)
    : option (pyval * list ascii) :=
  match fuel with
  | O => None
  | S fuel =>
      match scan_value fuel s with
      | Some (v, rest) =>
          match skip_ws rest with
          | c :: rest' =>
              if code c =? 93 then Some (PyList (acc ++ [v])%list, rest')
              else if code c =? 44 then scan_items fuel (acc ++ [v])%list (skip_ws rest')
              else None
          | [] => None
          end
      | None => None
      end
  end
(** The members of an object, from the first key on. *)
with scan_members (fuel : nat) (acc : list (pyval * pyval)) (s : list ascii)
    : option (pyval * list ascii) :=
  match fuel with
  | O => None
  | S fuel =>
      match is_char 34 s with
      | Some s1 =>
          match scan_string (length s) s1 with
          | Some (key, s2) =>
              match is_char 58 (skip_ws s2) with
              | Some s3 =>
                  match scan_value fuel (skip_ws s3) with
                  | Some (v, rest) =>
                      match skip_ws rest with
                      | c :: rest' =>
                          if code c =? 125 then Some (PyDict (dict_set acc (text key) v), rest')
                          else if code c =? 44 then
                            scan_members fuel (dict_set acc (text key) v) (skip_ws rest')
                          else None
                      | [] => None
                      end
                  | None => None
                  end
              | None => None
              end
          | None => None
          end
      | None => None
      end
  end.

Definition starts_with_bom (s : list ascii) : bool :=
  match s with
  | a :: b :: c :: _ => (code a =? 239) && (code b =? 187) && (code c =? 191)
  | _ => false
  end.

Definition loads (s : string) : result pyval :=
  let cs := chars s in
  if starts_with_bom cs then Raise ValueError
  else
    match scan_value (3 * length cs + 3) (skip_ws cs) with
    | Some (v, rest) =>
        match skip_ws rest with
        | [] => Ok v
        | _ :: _ => Raise ValueError
        end
    | None => Raise ValueError
    end.

(** *** [json.dumps] *)

(** The code points of a text.  Bytes that do not form a UTF-8
    sequence are read as code points of their own. *)
Definition is_cont (c : ascii) : bool := (128 <=? code c) && (code c <? 192).

Fixpoint decode_utf8 (s : list ascii) : list Z :=
  match s with
  | [] => []
  | a :: s1 =>
      let x := code a in
      match s1 with
      | b :: s2 =>
          if (192 <=? x) && (x <? 224) && is_cont b then
            ((x - 192) * 64 + (code b - 128)) :: decode_utf8 s2
          else
            match s2 with
            | c :: s3 =>
                if (224 <=? x) && (x <? 240) && is_cont b && is_cont c then
                  ((x - 224) * 4096 + (code b - 128) * 64 + (code c - 128)) :: decode_utf8 s3
                else
                  match s3 with
                  | d :: s4 =>
                      if (240 <=? x) && (x <? 248) && is_cont b && is_cont c && is_cont d then
                        ((x - 240) * 262144 + (code b - 128) * 4096
                         + (code c - 128) * 64 + (code d - 128)) :: decode_utf8 s4
                      else x :: decode_utf8 s1
                  | [] => x :: decode_utf8 s1
                  end
            | [] => x :: decode_utf8 s1
            end
      | [] => [x]
      end
  end.

Definition hex_digit (n : Z) : ascii := chr (if n <? 10 then 48 + n else 87 + n).

Definition u_escape (cp : Z) : list ascii :=
  [chr 92; chr 117; hex_digit (cp / 4096); hex_digit ((cp / 256) mod 16);
   hex_digit ((cp / 16) mod 16); hex_digit (cp mod 16)].

(** One code point inside a string literal, with [ensure_ascii]. *)
Definition escape_code_point (cp : Z) : list ascii :=
  if (cp =? 34) || (cp =? 92) then [chr 92; chr cp]
  else if cp =? 10 then [chr 92; chr 110]
  else if cp =? 13 then [chr 92; chr 114]
  else if cp =? 9 then [chr 92; chr 116]
  else if cp =? 8 then [chr 92; chr 98]
  else if cp =? 12 then [chr 92; chr 102]
  else if (32 <=? cp) && (cp <=? 126) then [chr cp]
  else if cp <? 65536 then u_escape cp
  else (u_escape (55296 + (cp - 65536) / 1024)
        ++ u_escape (56320 + (cp - 65536) mod 1024))%list.

Definition encode_string (s : string) : list ascii :=
  (chr 34 :: flat_map escape_code_point (decode_utf8 (chars s)) ++ [chr 34])%list.

Definition repr_int (n : Z) : list ascii := chars (NilZero.string_of_int (Z.to_int n)).

(** **** [float.__repr__]: the shortest decimal that reads back as
    the same float, the one nearest to it if there are several. *)

(** Is [num / den >= 10 ^ j]? *)
Definition ge_pow10 (num den j : Z) : bool :=
  if 0 <=? j then den * 10 ^ j <=? num else den <=? num * 10 ^ (- j).

(** The [k] with [10 ^ (k - 1) <= num / den < 10 ^ k]. *)
Definition decimal_point (num den : Z) : Z :=
  let k0 := (Z.log2 num - Z.log2 den) * 30103 / 100000 in
  let fits k := ge_pow10 num den (k - 1) && negb (ge_pow10 num den k) in
  default k0 (List.find fits [k0 - 2; k0 - 1; k0; k0 + 1; k0 + 2; k0 + 3]).

Definition same_float (x y : spec_float) : bool :=
  match x, y with
  | S754_finite s m e, S754_finite s' m' e' => Bool.eqb s s' && (m =? m')%positive && (e =? e')
  | _, _ => false
  end.

(** With [p] digits: the candidate [n * 10 ^ q], if one reads back as
    [x = m * 2 ^ e]. *)
Definition candidate (m : positive) (e : Z) (k : Z) (p : Z) : option (Z * Z) :=
  let x := S754_finite false m e in
  let num := if 0 <=? e then Zpos m * 2 ^ e else Zpos m in
  let den := if 0 <=? e then 1 else 2 ^ (- e) in
  let q := k - p in
  let snum := if 0 <=? q then num else num * 10 ^ (- q) in
  let sden := if 0 <=? q then den * 10 ^ q else den in
  let lo := snum / sden in
  let hi := lo + 1 in
  let lo_ok := same_float (float_of_decimal false lo q) x in
  let hi_ok := same_float (float_of_decimal false hi q) x in
  match lo_ok, hi_ok with
  | true, false => Some (lo, q)
  | false, true => Some (hi, q)
  | false, false => None
  | true, true =>
      match (2 * snum ?= (2 * lo + 1) * sden) with
      | Lt => Some (lo, q)
      | Gt => Some (hi, q)
      | Eq => Some (if Z.even lo then lo else hi, q)
      end
  end.

Fixpoint shortest (m : positive) (e : Z) (k : Z) (p : Z) (fuel : nat) : Z * Z :=
  match fuel with
  | O => (Zpos m, e)
  | S fuel =>
      match candidate m e k p with
      | Some r => r
      | None => shortest m e k (p + 1) fuel
      end
  end.

Fixpoint drop_trailing_zeros (rev_digits : list ascii) : list ascii :=
  match rev_digits with
  | c :: rest => if code c =? 48 then drop_trailing_zeros rest else rev_digits
  | [] => []
  end.

Definition zeros (n : Z) : list ascii := repeat (chr 48) (Z.to_nat n).

Definition repr_finite (neg : bool) (m : positive) (e : Z) : list ascii :=
  let num := if 0 <=? e then Zpos m * 2 ^ e else Zpos m in
  let den := if 0 <=? e then 1 else 2 ^ (- e) in
  let k := decimal_point num den in
  let '(n, q) := shortest m e k 1 17 in
  let all := repr_int n in
  let decpt := Z.of_nat (length all) + q in
  let ds := rev (drop_trailing_zeros (rev all)) in
  let nd := Z.of_nat (length ds) in
  let body :=
    if (decpt <=? -4) || (16 <? decpt) then
      let ex := decpt - 1 in
      let exd := repr_int (Z.abs ex) in
      (firstn 1 ds
       ++ (if 1 <? nd then chr 46 :: skipn 1 ds else [])
       ++ [chr 101; chr (if ex <? 0 then 45 else 43)]
       ++ (if Z.abs ex <? 10 then chr 48 :: exd else exd))%list
    else if decpt <=? 0 then (chr 48 :: chr 46 :: zeros (- decpt) ++ ds)%list
    else if nd <=? decpt then (ds ++ zeros (decpt - nd) ++ [chr 46; chr 48])%list
    else (firstn (Z.to_nat decpt) ds ++ chr 46 :: skipn (Z.to_nat decpt) ds)%list in
  if neg then chr 45 :: body else body.

(** A float as [json.dumps] writes it (with [allow_nan]). *)
Definition encode_float (f : spec_float) : list ascii :=
  match f with
  | S754_nan => chars "NaN"
  | S754_infinity false => chars "Infinity"
  | S754_infinity true => chars "-Infinity"
  | S754_zero false => chars "0.0"
  | S754_zero true => chars "-0.0"
  | S754_finite s m e => repr_finite s m e
  end.

(** The text of a dict key: strings as they are, numbers, booleans and
    [None] by their JSON text; any other key is a TypeError. *)
Definition encode_key (k : pyval) : option (list ascii) :=
  match k with
  | PyStr s => Some (encode_string s)
  | PyBool true => Some (encode_string "true")
  | PyBool false => Some (encode_string "false")
  | PyNone => Some (encode_string "null")
  | PyInt n => Some (encode_string (text (repr_int n)))
  | PyFloat f => Some (encode_string (text (encode_float f)))
  | PyList _ | PyDict _ | PyObject _ => None
  end.

Definition join_with (sep : list ascii) (parts : list (list ascii)) : list ascii :=
  match parts with
  | [] => []
  | first :: others => (first ++ flat_map (fun part => sep ++ part) others)%list
  end.

Fixpoint sequence {A} (l : list (option A)) : option (list A) :=
  match l with
  | [] => Some []
  | Some a :: l' =>
      match sequence l' with
      | Some r => Some (a :: r)
      | None => None
      end
  | None :: _ => None
  end.

Fixpoint encode (v : pyval) : option (list ascii) :=
  match v with
  | PyNone => Some (chars "null")
  | PyBool true => Some (chars "true")
  | PyBool false => Some (chars "false")
  | PyInt n => Some (repr_int n)
  | PyFloat f => Some (encode_float f)
  | PyStr s => Some (encode_string s)
  | PyList l =>
      match sequence (map encode l) with
      | Some parts => Some (chr 91 :: join_with (chars ", ") parts ++ [chr 93])%list
      | None => None
      end
  | PyDict items =>
      let member (entry : pyval * pyval) :=
        match encode_key (fst entry), encode (snd entry) with
        | Some k, Some x => Some (k ++ chars ": " ++ x)%list
        | _, _ => None
        end in
      match sequence (map member items) with
      | Some parts => Some (chr 123 :: join_with (chars ", ") parts ++ [chr 125])%list
      | None => None
      end
  | PyObject _ => None
  end.

Definition dumps (v : pyval) : result string :=
  match encode v with
  | Some cs => Ok (text cs)
  | None => Raise TypeError
  end.

End CPythonRuntime.

(** The runtime instance. *)
#[export] Instance CPython : PyRuntime := {|
  float_of_str s := CPythonRuntime.float_of_chars (CPythonRuntime.chars s);
  int_of_str s := CPythonRuntime.int_of_chars (CPythonRuntime.chars s);
  json_loads := CPythonRuntime.loads;
  json_dumps := CPythonRuntime.dumps
|}.

(** * Vocabulary of the properties *)

Local Open Scope list_scope.

(** ** Durations against elapsed time *)

(** [0 < d] and [d <= 0] for a float [d]; a NaN is neither. *)
Definition float_pos (d : spec_float) : bool :=
  match d with
  | S754_finite false _ _ | S754_infinity false => true
  | _ => false
  end.


(** A call that blocks for [elapsed] nanoseconds ends before [d]
    seconds have passed. *)
Definition shorter_than (elapsed : Z) (d : spec_float) : bool :=
  match d with
  | S754_infinity false => true
  | S754_finite false m e => elapsed <? seconds_to_ns m e
  | _ => false
  end.

Definition active (t : timer) : bool :=
  match tm_state t with
  | Waiting _ => true
  | _ => false
  end.

(** The state a fresh timer enters when started at [now], and what its
    thread reports at once. *)
Definition started_state (now : Z) (interval : spec_float) : timer_state :=
  match wait_timeout interval with
  | WaitNow => Waiting now
  | WaitFor ns => Waiting (now + ns)
  | WaitRefused _ => Crashed
  end.

Definition start_errors (interval : spec_float) : list exn :=
  match wait_timeout interval with
  | WaitRefused e => [e]
  | _ => []
  end.

(** ** The two readings of a guarded call with a duration that is not
    positive *)



(** ** Handlers and senders *)

Definition debug (fmt : string) (arg : option pyval) : log_record :=
  LogRecord self_logger DEBUG fmt arg.

(** A handler that swallows a failure: it returns normally, publishes
    nothing and leaves a record in the log. *)
Definition swallows (h : string -> M unit) (response : string) (w : world) : Prop :=
  fst (h response w) = Ok tt
  /\ w_signals (snd (h response w)) = w_signals w
  /\ (length (w_log w) < length (w_log (snd (h response w))))%nat.

(** The callbacks the constructor registers, and a world in which they
    are the ones the transport calls. *)
Definition registrations : list (string * handler) :=
  [("logging", forward_logging); ("command", forward_command);
   ("run_tests", forward_run_tests); ("state_requested", forward_state_request);
   ("active_document_changed", forward_active_document_changed);
   ("gdn_hwnd", forward_gdn_hwnd)].

Definition connected (w : world) : Prop :=
  Forall (fun entry => w_handlers w !! fst entry = Some (snd entry)) registrations.

(** A sender without argument: one message without data leaves under
    [name] and the call returns at once. *)
Definition sends_bare (m : M unit) (name : string) (w : world) : Prop :=
  fst (m w) = Ok tt
  /\ w_sent (snd (m w)) = w_sent w ++ [(name, None)]
  /\ w_clock (snd (m w)) = w_clock w
  /\ w_calls (snd (m w)) = w_calls w.

Definition dict_keys (v : pyval) : list pyval :=
  match v with
  | PyDict items => map fst items
  | _ => []
  end.

Section Vocabulary.
Context `{PyRuntime}.

(** A sender with an argument: the argument is encoded, and either one
    message with the encoded text leaves under [name], the call
    returning at once, or the encoder's exception is the call's and
    nothing leaves. *)
Definition sends_encoded (m : M unit) (name : string) (arg : pyval) (w : world) : Prop :=
  match json_dumps arg with
  | Ok data =>
      fst (m w) = Ok tt
      /\ w_sent (snd (m w)) = w_sent w ++ [(name, Some data)]
      /\ w_clock (snd (m w)) = w_clock w
      /\ w_calls (snd (m w)) = w_calls w
  | Raise e => m w = (Raise e, w)
  end.

(** A bridge whose construction fails when one of its two durations is
    not a number. *)
Definition validated_at_construction (self : GDNBridge) (w : world) : Prop :=
  forall e,
    py_float (SHOTGUN_GDN_HEARTBEAT_TIMEOUT (cls self)) = Raise e
    \/ py_float (SHOTGUN_GDN_RESPONSE_TIMEOUT (cls self)) = Raise e ->
    exists e', fst (__init__ self w) = Raise e'.

(** What the two handlers make of a payload before they emit. *)
Definition decode_command (response : string) : result Z :=
  match json_loads response with
  | Ok v => py_int v
  | Raise e => Raise e
  end.

Definition decode_logging (response : string) : result (pyval * pyval) :=
  match json_loads response with
  | Ok v =>
      match py_get v "level", py_get v "message" with
      | Ok level, Ok message => Ok (level, message)
      | Raise e, _ | Ok _, Raise e => Raise e
      end
  | Raise e => Raise e
  end.

(** The well-formed inbound messages and the signal each stands for:
    the name of the message, its payload, the signal.  The fields are
    those of the table of forwarded events: strings for a logging
    message, an integer for a command and for a window handle, a string
    or nothing for the path of the active document. *)
Inductive well_formed : string -> string -> qt_signal -> Prop :=
| wf_logging response items level message :
    json_loads response = Ok (PyDict items) ->
    dict_get items "level" = PyStr level ->
    dict_get items "message" = PyStr message ->
    well_formed "logging" response (logging_received (PyStr level) (PyStr message))
| wf_command response n :
    json_loads response = Ok (PyInt n) ->
    well_formed "command" response (command_received n)
| wf_run_tests response :
    well_formed "run_tests" response run_tests_request_received
| wf_state_requested response :
    well_formed "state_requested" response state_requested
| wf_active_document_changed response items path :
    json_loads response = Ok (PyDict items) ->
    dict_get items "active_document_path" = PyStr path ->
    well_formed "active_document_changed" response (active_document_changed (PyStr path))
| wf_active_document_unsaved response items :
    json_loads response = Ok (PyDict items) ->
    dict_get items "active_document_path" = PyNone ->
    well_formed "active_document_changed" response (active_document_changed PyNone)
| wf_gdn_hwnd response n :
    json_loads response = Ok (PyInt n) ->
    well_formed "gdn_hwnd" response (gdn_hwnd n).
End Vocabulary.

(** ** Concrete worlds, hosts and payloads *)

(** The world with nothing in it. *)
Definition w0 : world := World 0 [] [] false 0 [] [] [] ∅.

Definition second : Z := 1000000000.

(** A host that answers a ping after two seconds and a call after 301,
    with no document open. *)
Definition slow_host : Communicator := {|
  Communicator_init := ret tt;
  Communicator_ping := Call (2 * second) (Ok tt);
  Communicator_wait_for_response := fun uid => Call (301 * second) (Ok (PyInt uid));
  silence_enter := id;
  silence_exit := id;
  activeDocument := Raise (RuntimeError "No documents are open")
|}.

(** Hosts with a document that was never saved, and with a saved one. *)
Definition unsaved_host : Communicator := {|
  Communicator_init := ret tt;
  Communicator_ping := Call 1000 (Ok tt);
  Communicator_wait_for_response := fun uid => Call 1000 (Ok PyNone);
  silence_enter := id;
  silence_exit := id;
  activeDocument :=
    Ok (Some (Document (Raise (RuntimeError "The document has not yet been saved"))))
|}.

Definition saved_host : Communicator := {|
  Communicator_init := ret tt;
  Communicator_ping := Call 1000 (Ok tt);
  Communicator_wait_for_response := fun uid => Call 1000 (Ok PyNone);
  silence_enter := id;
  silence_exit := id;
  activeDocument := Ok (Some (Document (Ok (FileObject (Ok (PyStr "/projects/shot.psd"))))))
|}.

Definition bridge (environ : gmap string string) (b : Communicator) : GDNBridge :=
  {| cls := GDNBridge_class_body environ; base := b |}.

(** A text between double quotes. *)
Definition quote (s : string) : list ascii :=
  CPythonRuntime.chr 34 :: CPythonRuntime.chars s ++ [CPythonRuntime.chr 34].

(** The JSON text of the object with the two given members. *)
Definition json_object2 (k1 v1 k2 v2 : string) : string :=
  CPythonRuntime.text
    (CPythonRuntime.chars "{" ++ quote k1 ++ CPythonRuntime.chars ":" ++ quote v1
     ++ CPythonRuntime.chars "," ++ quote k2 ++ CPythonRuntime.chars ":" ++ quote v2
     ++ CPythonRuntime.chars "}").

(** * Vocabulary of the further properties *)

(** ** Timers *)

(** A world in which no timer is waiting. *)
Definition idle (w : world) : Prop :=
  forallb (fun t => negb (active t)) (w_timers w) = true.

(** How long the thread of a timer waits, in nanoseconds, when its wait
    is accepted. *)
Definition wait_length (d : spec_float) : option Z :=
  match wait_timeout d with
  | WaitNow => Some 0
  | WaitFor ns => Some ns
  | WaitRefused _ => None
  end.


(** The wait runs out under a callable that blocks for [elapsed]. *)
Definition fires (tie : bool) (wait elapsed : Z) : bool :=
  (wait <? elapsed) || ((wait =? elapsed) && tie).

(** Where the timer of a guarded call ends, and what its thread
    reports: the RPCTimeoutError when the wait runs out, the exception
    of the refusal when the wait is refused. *)
Definition guard_state (d : spec_float) (tie : bool) (elapsed : Z) : timer_state :=
  match wait_length d with
  | Some wait => if fires tie wait elapsed then Fired else Cancelled
  | None => Crashed
  end.

Definition guard_report (d : spec_float) (msg : string) (tie : bool) (elapsed : Z)
    : list exn :=
  match wait_timeout d with
  | WaitNow => if fires tie 0 elapsed then [RPCTimeoutError msg] else []
  | WaitFor ns => if fires tie ns elapsed then [RPCTimeoutError msg] else []
  | WaitRefused e => [e]
  end.

(** ** Payloads *)

Definition has_key (k : string) (items : list (pyval * pyval)) : bool :=
  existsb (key_is k) items.

(** The values [int] converts, and the integer each gives: integers,
    booleans, finite floats (cut towards zero), and texts that read as
    an integer. *)
Inductive int_of_payload `{PyRuntime} : pyval -> Z -> Prop :=
| int_of_int n : int_of_payload (PyInt n) n
| int_of_true : int_of_payload (PyBool true) 1
| int_of_false : int_of_payload (PyBool false) 0
| int_of_zero s : int_of_payload (PyFloat (S754_zero s)) 0
| int_of_finite s m e : int_of_payload (PyFloat (S754_finite s m e)) (float_trunc s m e)
| int_of_text s n : int_of_str s = Some n -> int_of_payload (PyStr s) n.

(** The callback the constructor registers under a name, if any. *)
Definition registered_handler (name : string) : option handler :=
  match List.find (fun entry => String.eqb name (fst entry)) registrations with
  | Some entry => Some (snd entry)
  | None => None
  end.

(** The three records the constructor logs. *)
Definition init_log (c : GDNBridge_class) : list log_record :=
  [debug "SHOTGUN_GDN_RESPONSE_TIMEOUT is %s" (Some (SHOTGUN_GDN_RESPONSE_TIMEOUT c));
   debug "SHOTGUN_GDN_HEARTBEAT_TIMEOUT is %s" (Some (SHOTGUN_GDN_HEARTBEAT_TIMEOUT c));
   debug "Setting up event connections" None].


(** ** Sequences of calls *)

(** A call of one of the seven senders. *)
Inductive send_call : Type :=
| Log_message (level msg : pyval)
| Send_commands (commands : pyval)
| Send_context_display (context_display : pyval)
| Send_context_thumbnail (context_thumbnail : pyval)
| Send_log_file_path (log_file : pyval)
| Send_unknown_context
| Context_about_to_change.

Section FurtherVocabulary.
Context `{PyRuntime}.

(** What [_forward_active_document_changed] makes of a payload before
    it emits. *)
Definition decode_document (response : string) : result pyval :=
  match json_loads response with
  | Ok v => py_get v "active_document_path"
  | Raise e => Raise e
  end.

Definition run_send (c : send_call) : M unit :=
  match c with
  | Log_message level msg => log_message level msg
  | Send_commands commands => send_commands commands
  | Send_context_display context_display => send_context_display context_display
  | Send_context_thumbnail context_thumbnail => send_context_thumbnail context_thumbnail
  | Send_log_file_path log_file => send_log_file_path log_file
  | Send_unknown_context => send_unknown_context
  | Context_about_to_change => context_about_to_change
  end.

(** The calls of a list, one after the other. *)
Fixpoint run_sends (cs : list send_call) : M unit :=
  match cs with
  | [] => ret tt
  | c :: cs' => run_send c ;;; run_sends cs'
  end.

Definition encoded (name : string) (arg : pyval) : result (string * option string) :=
  match json_dumps arg with
  | Ok data => Ok (name, Some data)
  | Raise e => Raise e
  end.

(** The message a call puts on the wire, or the exception of the
    encoder. *)
Definition wire (c : send_call) : result (string * option string) :=
  match c with
  | Log_message level msg => encoded "log_message" (log_data level msg)
  | Send_commands commands => encoded "set_commands" commands
  | Send_context_display context_display => encoded "set_context_display" context_display
  | Send_context_thumbnail context_thumbnail =>
      encoded "set_context_thumbnail" context_thumbnail
  | Send_log_file_path log_file => encoded "set_log_file_path" log_file
  | Send_unknown_context => Ok ("set_unknown_context", None)
  | Context_about_to_change => Ok ("context_about_to_change", None)
  end.

(** The messages of the calls before the first one that does not
    encode, and the exception of that one. *)
Fixpoint wires (cs : list send_call) : list (string * option string) * option exn :=
  match cs with
  | [] => ([], None)
  | c :: cs' =>
      match wire c with
      | Ok m => (m :: fst (wires cs'), snd (wires cs'))
      | Raise e => ([], Some e)
      end
  end.

(** The inbound messages of a list, received one after the other. *)
Fixpoint deliver (messages : list (string * string)) : M unit :=
  match messages with
  | [] => ret tt
  | message :: rest => receive (fst message) (snd message) ;;; deliver rest
  end.
End FurtherVocabulary.


(** * Properties *)

(** ** The timeout decorator *)

Section TimeoutFacts.
Context `{PyRuntime}.

Lemma Timer_start_fresh (w : world) (interval : spec_float) (fn : result unit) :
  Timer_start (length (w_timers w))
    (set_timers (w_timers w ++ [Timer interval fn Created]) w)
  = (Ok tt,
     set_thread_errors (w_thread_errors w ++ start_errors interval)
       (set_timers (w_timers w ++ [Timer interval fn (started_state (w_clock w) interval)]) w)).
Proof.
  unfold Timer_start, started_state, start_errors. cbn [w_timers set_timers].
  rewrite list_lookup_middle by reflexivity. cbn [tm_state tm_interval].
  assert (Hins : forall t' : timer,
             <[length (w_timers w) := t']> (w_timers w ++ [Timer interval fn Created])
             = w_timers w ++ [t']).
  { intros t'. rewrite insert_app_r_alt by lia.
    replace (length (w_timers w) - length (w_timers w))%nat with 0%nat by lia.
    reflexivity. }
  destruct (wait_timeout interval); rewrite Hins; destruct w; cbn;
    rewrite ?app_nil_r; reflexivity.
Qed.

(** What a guarded call does, whatever the interval: the body of
    [wrapper] unfolded once and for all. *)
Lemma timeout_run {A} (seconds : pyval) (d : spec_float) (msg : string)
    (func : call A) (w : world) :
  py_float seconds = Ok d ->
  let now := w_clock w + call_elapsed func in
  let tie := w_tie_fires w in
  let t := Timer d (_handle_timeout msg) (started_state (w_clock w) d) in
  timeout seconds msg func w
  = (call_outcome func,
     World now
       (map (run_thread tie now) (w_timers w)
        ++ [set_state (cancel_state (tm_state (run_thread tie now t))) (run_thread tie now t)])
       ((w_thread_errors w ++ start_errors d)
        ++ flat_map (run_errors tie now) (w_timers w) ++ run_errors tie now t)
       tie (S (w_calls w)) (w_log w) (w_sent w) (w_signals w) (w_handlers w)).
Proof.
  intros Hd now tie t.
  unfold timeout, bind, lift, try_finally, ret. rewrite Hd.
  unfold Timer_new. rewrite Timer_start_fresh.
  unfold invoke, advance, Timer_cancel.
  cbn [w_timers w_clock w_thread_errors w_tie_fires w_calls w_log w_sent
       w_signals w_handlers set_timers set_thread_errors set_calls set_clock].
  rewrite map_app, flat_map_app. cbn [map flat_map]. rewrite app_nil_r.
  rewrite alter_app_r_alt by (rewrite length_map; lia).
  rewrite length_map.
  replace (length (w_timers w) - length (w_timers w))%nat with 0%nat by lia.
  destruct (call_outcome func); reflexivity.
Qed.

(** A timer that was given [ns] nanoseconds fires under a callable
    that blocks for longer; the callable's outcome stands. *)
Lemma timeout_after_deadline {A} (seconds : pyval) (d : spec_float)
    (ns : Z) (msg : string) (func : call A) (w : world) :
  py_float seconds = Ok d ->
  wait_timeout d = WaitFor ns ->
  ns < call_elapsed func ->
  fst (timeout seconds msg func w) = call_outcome func
  /\ w_timers (snd (timeout seconds msg func w))
     = w_timers (advance (call_elapsed func) w) ++ [Timer d (_handle_timeout msg) Fired]
  /\ w_thread_errors (snd (timeout seconds msg func w))
     = w_thread_errors (advance (call_elapsed func) w) ++ [RPCTimeoutError msg].
Proof.
  intros Hd Hwait Hlong.
  rewrite (timeout_run _ _ _ _ _ Hd).
  unfold started_state, start_errors, run_thread, run_errors, expired, advance.
  rewrite Hwait. cbn.
  replace (w_clock w + ns <? w_clock w + call_elapsed func) with true
    by (symmetry; apply Z.ltb_lt; lia).
  cbn. rewrite app_nil_r, app_assoc. auto.
Qed.

(** A duration that [float] rejects: the exception is the call's, and
    nothing else has happened. *)
Lemma timeout_bad_duration {A} (seconds : pyval) (e : exn) (msg : string)
    (func : call A) (w : world) :
  py_float seconds = Raise e ->
  timeout seconds msg func w = (Raise e, w).
Proof. intros He. unfold timeout, bind, lift. rewrite He. reflexivity. Qed.

(** C1. What the code does when the deadline passes: for a duration
    [d > 0] that the timer accepts ([ns] nanoseconds) and a callable
    that blocks for longer, the timer fires and [_handle_timeout]
    raises RPCTimeoutError with the configured message in the timer's
    thread, where it ends that thread; the guarded call itself ends
    with the callable's own outcome, a normal return included.  The
    exception never reaches the caller. *)
Theorem timeout_expired_returns_outcome {A} (seconds : pyval) (d : spec_float)
    (ns : Z) (msg : string) (func : call A) (w : world) :
  py_float seconds = Ok d ->
  wait_timeout d = WaitFor ns ->
  ns < call_elapsed func ->
  let r := timeout seconds msg func w in
  let aged := advance (call_elapsed func) w in
  fst r = call_outcome func
  /\ w_timers (snd r) = w_timers aged ++ [Timer d (_handle_timeout msg) Fired]
  /\ w_thread_errors (snd r) = w_thread_errors aged ++ [RPCTimeoutError msg].
Proof.
  intros Hd Hwait Hlong r aged. subst r aged.
  exact (timeout_after_deadline seconds d ns msg func w Hd Hwait Hlong).
Qed.

(** C4. A call guarded with a duration [d > 0] whose callable ends,
    by returning or by raising, before [d] has passed ends the way the
    callable ended, and the timer it created is stopped: it is left
    cancelled (or, for a duration the timer cannot wait for, its
    thread is already over), its function was never called, and the
    other timers have only seen time pass.  If no timer was active
    before, none is afterwards. *)
Theorem timeout_in_time_returns_and_cancels {A} (seconds : pyval) (d : spec_float)
    (msg : string) (func : call A) (w : world) :
  py_float seconds = Ok d ->
  float_pos d = true ->
  shorter_than (call_elapsed func) d = true ->
  let r := timeout seconds msg func w in
  let aged := advance (call_elapsed func) w in
  fst r = call_outcome func
  /\ (exists st,
        w_timers (snd r) = w_timers aged ++ [Timer d (_handle_timeout msg) st]
        /\ (st = Cancelled \/ st = Crashed))
  /\ (forallb (fun t => negb (active t)) (w_timers aged) = true ->
      forallb (fun t => negb (active t)) (w_timers (snd r)) = true).
Proof.
  intros Hd Hpos Hshort r aged. subst r aged.
  rewrite (timeout_run _ _ _ _ _ Hd).
  assert (Hst : exists st,
             set_state
               (cancel_state
                  (tm_state (run_thread (w_tie_fires w) (w_clock w + call_elapsed func)
                               (Timer d (_handle_timeout msg) (started_state (w_clock w) d)))))
               (run_thread (w_tie_fires w) (w_clock w + call_elapsed func)
                  (Timer d (_handle_timeout msg) (started_state (w_clock w) d)))
             = Timer d (_handle_timeout msg) st
             /\ (st = Cancelled \/ st = Crashed)).
  { unfold started_state, run_thread, expired, wait_timeout.
    destruct d as [s | [ | ] | | [ | ] m e]; try discriminate Hpos; cbn.
    - exists Crashed. auto.
    - cbn in Hshort. apply Z.ltb_lt in Hshort.
      destruct (seconds_to_ns m e <=? PyTime_MAX); cbn;
        [ | destruct (seconds_to_ns m e =? 2 ^ 63); cbn; exists Crashed; auto ].
      + replace (w_clock w + seconds_to_ns m e <? w_clock w + call_elapsed func)
          with false by (symmetry; apply Z.ltb_ge; lia).
        replace (w_clock w + seconds_to_ns m e =? w_clock w + call_elapsed func)
          with false by (symmetry; apply Z.eqb_neq; lia).
        cbn. exists Cancelled. auto. }
  destruct Hst as (st & Heq & Hst). rewrite Heq. cbn [fst snd w_timers advance set_clock
    set_thread_errors set_timers].
  split; [reflexivity | split].
  - exists st. auto.
  - intros Hold. rewrite forallb_app, Hold. cbn.
    destruct Hst as [-> | ->]; reflexivity.
Qed.

End TimeoutFacts.

(** ** The bridge *)

Section BridgeFacts.
Context `{PyRuntime}.

Lemma init_outcome (self : GDNBridge) (w : world) :
  fst (__init__ self w) = fst (Communicator_init (base self) w).
Proof.
  unfold __init__, bind. destruct (Communicator_init (base self) w) as [[[] | e] w1];
    reflexivity.
Qed.

(** A constructor that ends well leaves the six callbacks registered. *)
Lemma init_connected (self : GDNBridge) (w : world) :
  fst (__init__ self w) = Ok tt ->
  connected (snd (__init__ self w)).
Proof.
  unfold __init__, bind, log_call, io_on.
  destruct (Communicator_init (base self) w) as [[[] | e] w1]; [ | discriminate].
  intros _. unfold connected, registrations. cbn.
  repeat constructor; cbn; simplify_map_eq; reflexivity.
Qed.

(** C2, as the code has it.  A payload that fails to decode makes the
    handler raise: the exception of [json.loads], of [int] or of [get]
    leaves the handler, no signal is emitted, and nothing about the
    failure is logged.  The log gains only the routine debug line of
    the handler where that line comes before the failing step: always
    for [_forward_command]; for [_forward_logging] the line with the
    decoded value when it is [get] that fails, and nothing when it is
    [json.loads].  The rest of the world is as it was. *)
Theorem forward_decode_failure_is_raised (command_payload logging_payload : string)
    (ec el : exn) (w : world) :
  decode_command command_payload = Raise ec ->
  decode_logging logging_payload = Raise el ->
  _forward_command command_payload w
  = (Raise ec, set_log (w_log w ++ [debug "Emitting command_received signal." None]) w)
  /\ _forward_logging logging_payload w
     = (Raise el,
        set_log
          (w_log w
           ++ match json_loads logging_payload with
              | Ok v => [debug "Got logging command - forwarding to Qt %s" (Some v)]
              | Raise _ => []
              end) w).
Proof.
  unfold decode_command, decode_logging, _forward_command, _forward_logging,
    bind, lift, log_call, signal_emit.
  intros Hc Hl. split.
  - destruct (json_loads command_payload) as [v | e]; cbn.
    + rewrite Hc. reflexivity.
    + inversion Hc; subst. reflexivity.
  - destruct (json_loads logging_payload) as [v | e]; cbn.
    + destruct (py_get v "level") as [lv | e1]; cbn.
      * destruct (py_get v "message") as [m | e2]; [discriminate Hl | ].
        inversion Hl; subst. reflexivity.
      * inversion Hl; subst. reflexivity.
    + inversion Hl; subst. rewrite app_nil_r. destruct w; reflexivity.
Qed.

(** C3, as the code has it.  The two durations are class attributes:
    they are read from the environment when the class body runs, with
    the defaults 300.0 and 0.5, and kept as read (the text of the
    variable, when it is set).  The constructor does not convert
    them, so it ends as the base constructor ends whatever they are.
    They are converted with [float] at every guarded call: a value
    [float] rejects makes [ping] and [_wait_for_response] raise that
    exception, before a timer exists and without the base method
    being invoked. *)
Theorem durations_read_at_class_definition_converted_at_call
    (environ : gmap string string) (b : Communicator) (uid : Z) (w : world) :
  let self := {| cls := GDNBridge_class_body environ; base := b |} in
  SHOTGUN_GDN_RESPONSE_TIMEOUT (cls self)
    = match environ !! "SHOTGUN_GDN_RESPONSE_TIMEOUT" with
      | Some v => PyStr v
      | None => PyFloat f300_0
      end
  /\ SHOTGUN_GDN_HEARTBEAT_TIMEOUT (cls self)
    = match environ !! "SHOTGUN_GDN_HEARTBEAT_TIMEOUT" with
      | Some v => PyStr v
      | None => PyFloat f0_5
      end
  /\ fst (__init__ self w) = fst (Communicator_init b w)
  /\ (forall e, py_float (SHOTGUN_GDN_HEARTBEAT_TIMEOUT (cls self)) = Raise e ->
      ping self w = (Raise e, w))
  /\ (forall e, py_float (SHOTGUN_GDN_RESPONSE_TIMEOUT (cls self)) = Raise e ->
      _wait_for_response self uid w = (Raise e, w)).
Proof.
  intros self. repeat split.
  - apply init_outcome.
  - intros e He. apply timeout_bad_duration, He.
  - intros e He. apply timeout_bad_duration, He.
Qed.

(** C5. A well-formed inbound message makes the bridge emit exactly
    one signal, the one that stands for it, with the decoded fields: a
    [logging] message whose payload is an object gives
    [logging_received] with the object's values under "level" and
    "message", a [command] message whose payload is an integer gives
    [command_received] with that integer, and so on for the other four
    names. *)
Theorem inbound_message_publishes_one_event (name response : string)
    (signal : qt_signal) (w : world) :
  connected w ->
  well_formed name response signal ->
  fst (receive name response w) = Ok tt
  /\ w_signals (snd (receive name response w)) = w_signals w ++ [signal].
Proof.
  intros Hconn Hwf. unfold connected, registrations in Hconn.
  repeat match goal with
         | Hf : Forall _ (_ :: _) |- _ => inversion Hf; subst; clear Hf
         end.
  cbn [fst snd] in *.
  unfold receive.
  destruct Hwf as [response items level message Hp Hlv Hmsg | response n Hp
                   | response | response
                   | response items path Hp Hpath | response items Hp Hpath
                   | response n Hp];
    match goal with
    | Hh : w_handlers w !! ?n = Some _ |- context [w_handlers w !! ?n] => rewrite Hh
    end;
    cbn [run_handler];
    unfold _forward_logging, _forward_command, _forward_run_tests, _forward_state_request,
      _forward_active_document_changed, _forward_gdn_hwnd, bind, lift, log_call,
      signal_emit;
    try rewrite Hp; cbn; rewrite ?Hlv, ?Hmsg, ?Hpath; auto.
Qed.

(** C6. What the code does at the two guarded methods when the
    deadline passes: [ping] is guarded with the heartbeat duration and
    the message "Ping timed out.", [_wait_for_response] with the
    response duration and the message "Timed out waiting for
    response."; each RPCTimeoutError is raised in the thread of its
    timer, and each method ends the way the base method ends. *)
Theorem guarded_methods_after_deadline (self : GDNBridge) (uid : Z)
    (dh dr : spec_float) (nh nr : Z) (w : world) :
  py_float (SHOTGUN_GDN_HEARTBEAT_TIMEOUT (cls self)) = Ok dh ->
  py_float (SHOTGUN_GDN_RESPONSE_TIMEOUT (cls self)) = Ok dr ->
  wait_timeout dh = WaitFor nh ->
  wait_timeout dr = WaitFor nr ->
  nh < call_elapsed (Communicator_ping (base self)) ->
  nr < call_elapsed (Communicator_wait_for_response (base self) uid) ->
  (fst (ping self w) = call_outcome (Communicator_ping (base self))
   /\ w_thread_errors (snd (ping self w))
      = w_thread_errors (advance (call_elapsed (Communicator_ping (base self))) w)
        ++ [RPCTimeoutError "Ping timed out."])
  /\ (fst (_wait_for_response self uid w)
      = call_outcome (Communicator_wait_for_response (base self) uid)
      /\ w_thread_errors (snd (_wait_for_response self uid w))
         = w_thread_errors
             (advance (call_elapsed (Communicator_wait_for_response (base self) uid)) w)
           ++ [RPCTimeoutError "Timed out waiting for response."]).
Proof.
  intros Hh Hr Hwh Hwr Hlh Hlr. unfold ping, _wait_for_response. split.
  - destruct (timeout_after_deadline _ _ _ "Ping timed out."
                (Communicator_ping (base self)) w Hh Hwh Hlh) as (? & _ & ?). auto.
  - destruct (timeout_after_deadline _ _ _ "Timed out waiting for response."
                (Communicator_wait_for_response (base self) uid) w Hr Hwr Hlr)
      as (? & _ & ?). auto.
Qed.

(** C7. [get_active_document_path] returns [None] when reading the
    active document raises or gives [None], and when reading the
    document's [fullName] or the [fsName] of that raises; when the
    document is there and its path is a string, it returns that
    string. *)
Theorem get_active_document_path_tolerates_host_failure (self : GDNBridge)
    (w : world) :
  (forall e, activeDocument (base self) = Raise e ->
     fst (get_active_document_path self w) = Ok None)
  /\ (activeDocument (base self) = Ok None ->
      fst (get_active_document_path self w) = Ok None)
  /\ (forall doc e, activeDocument (base self) = Ok (Some doc) ->
       (fullName doc = Raise e
        \/ exists f, fullName doc = Ok f /\ fsName f = Raise e) ->
       fst (get_active_document_path self w) = Ok None)
  /\ (forall doc f path, activeDocument (base self) = Ok (Some doc) ->
       fullName doc = Ok f -> fsName f = Ok (PyStr path) ->
       fst (get_active_document_path self w) = Ok (Some path)).
Proof.
  unfold get_active_document_path, get_active_document, response_logging_silenced,
    try_except, bind, lift, ret, log_call.
  repeat split.
  - intros e ->. reflexivity.
  - intros ->. reflexivity.
  - intros doc e -> [-> | (f & -> & ->)]; reflexivity.
  - intros doc f path -> -> ->. reflexivity.
Qed.

(** C8. Each of the seven senders emits one message under its name
    and returns at once: those with an argument send its JSON
    encoding, or raise what the encoder raises and send nothing; the
    two without argument send no data and cannot fail. *)
Theorem senders_emit_one_named_message (level msg commands context_display
    context_thumbnail log_file : pyval) (w : world) :
  sends_encoded (log_message level msg) "log_message" (log_data level msg) w
  /\ sends_encoded (send_commands commands) "set_commands" commands w
  /\ sends_encoded (send_context_display context_display) "set_context_display"
       context_display w
  /\ sends_encoded (send_context_thumbnail context_thumbnail) "set_context_thumbnail"
       context_thumbnail w
  /\ sends_encoded (send_log_file_path log_file) "set_log_file_path" log_file w
  /\ sends_bare send_unknown_context "set_unknown_context" w
  /\ sends_bare context_about_to_change "context_about_to_change" w.
Proof.
  unfold sends_encoded, sends_bare, log_message, send_commands, send_context_display,
    send_context_thumbnail, send_log_file_path, send_unknown_context,
    context_about_to_change, bind, lift, log_call, io_emit.
  repeat split;
    match goal with
    | |- context [json_dumps ?v] => destruct (json_dumps v); cbn; auto
    | _ => idtac
    end.
Qed.
End BridgeFacts.

(** C10. The dict [log_message] encodes has the keys "level" and "msg"
    and no other; under "message", the key the inbound [logging]
    handler reads, it holds nothing.  With the executable encoder, and
    [l] and [m] the encodings of the level and of the text, the data of
    the message sent is the object with the members "level": [l] and
    "msg": [m], in this order. *)
Theorem log_message_payload_keys (level msg : pyval) (l m : list ascii) (w : world) :
  CPythonRuntime.encode level = Some l ->
  CPythonRuntime.encode msg = Some m ->
  dict_keys (log_data level msg) = [PyStr "level"; PyStr "msg"]
  /\ py_get (log_data level msg) "msg" = Ok msg
  /\ py_get (log_data level msg) "message" = Ok PyNone
  /\ log_message level msg w
     = (Ok tt,
        set_sent
          (w_sent w
           ++ [("log_message",
                Some (CPythonRuntime.text
                        (CPythonRuntime.chars "{"
                         ++ quote "level" ++ CPythonRuntime.chars ": " ++ l
                         ++ CPythonRuntime.chars ", "
                         ++ quote "msg" ++ CPythonRuntime.chars ": " ++ m
                         ++ CPythonRuntime.chars "}")))]) w).
Proof.
  intros Hl Hm.
  split; [reflexivity | split; [reflexivity | split; [reflexivity | ]]].
  unfold log_message, bind, lift, io_emit, log_data. cbn [json_dumps CPython].
  unfold CPythonRuntime.dumps. cbn [CPythonRuntime.encode map fst snd CPythonRuntime.encode_key].
  rewrite Hl, Hm. cbn [CPythonRuntime.sequence CPythonRuntime.join_with flat_map].
  do 4 f_equal.
  change (CPythonRuntime.encode_string "level") with (quote "level").
  change (CPythonRuntime.encode_string "msg") with (quote "msg").
  rewrite app_nil_r. cbn [CPythonRuntime.chars list_ascii_of_string app].
  rewrite <- !app_assoc. reflexivity.
Qed.

(** * Executions

    The statements above at concrete inputs, run with the executable
    runtime. *)

(** C1: half a second allowed, two seconds taken, and the call returns
    7; the RPCTimeoutError stays in the timer's thread. *)
Lemma timeout_expired_witness :
  fst (timeout (PyFloat f0_5) "Ping timed out." (Call (2 * second) (Ok (PyInt 7))) w0)
  = Ok (PyInt 7)
  /\ w_thread_errors
       (snd (timeout (PyFloat f0_5) "Ping timed out." (Call (2 * second) (Ok (PyInt 7))) w0))
     = [RPCTimeoutError "Ping timed out."].
Proof.
  destruct (timeout_expired_returns_outcome (PyFloat f0_5) f0_5 500000000
              "Ping timed out." (Call (2 * second) (Ok (PyInt 7))) w0
              eq_refl eq_refl eq_refl) as (Hout & _ & Herr).
  split; [exact Hout | exact Herr].
Defined.

(** C4: a callable that raises after a tenth of a second, under half a
    second. *)
Lemma timeout_in_time_witness :
  fst (timeout (PyStr "0.5") "Ping timed out." (Call 100000000 (@Raise unit TypeError)) w0)
  = Raise TypeError
  /\ w_timers (snd (timeout (PyStr "0.5") "Ping timed out."
                      (Call 100000000 (@Raise unit TypeError)) w0))
     = [Timer f0_5 (_handle_timeout "Ping timed out.") Cancelled].
Proof.
  assert (Hd : py_float (PyStr "0.5") = Ok f0_5) by (vm_compute; reflexivity).
  destruct (timeout_in_time_returns_and_cancels (PyStr "0.5") f0_5 "Ping timed out."
              (Call 100000000 (@Raise unit TypeError)) w0 Hd eq_refl eq_refl)
    as (Hout & _ & _).
  split; [exact Hout | vm_compute; reflexivity].
Defined.


(** C2: the payload [abc] on the command channel.  The specification
    has the failure logged and swallowed; the handler raises it. *)
Lemma forward_command_malformed_not_swallowed :
  json_loads "abc" = Raise ValueError
  /\ ~ swallows _forward_command "abc" w0.
Proof.
  split; [vm_compute; reflexivity | ].
  intros [Hok _]. vm_compute in Hok. discriminate Hok.
Qed.

Lemma forward_decode_failure_witness :
  fst (_forward_command "abc" w0) = Raise ValueError
  /\ fst (_forward_logging "42" w0) = Raise AttributeError.
Proof.
  assert (Hc : decode_command "abc" = Raise ValueError) by (vm_compute; reflexivity).
  assert (Hl : decode_logging "42" = Raise AttributeError) by (vm_compute; reflexivity).
  destruct (forward_decode_failure_is_raised "abc" "42" ValueError AttributeError w0 Hc Hl)
    as [Hcr Hlr].
  rewrite Hcr, Hlr. split; reflexivity.
Defined.

(** C3: the heartbeat duration set to [abc].  The specification has
    the construction fail; the bridge is constructed, and it is [ping]
    that raises. *)
Lemma bad_duration_fails_at_the_call :
  let self := bridge {[ "SHOTGUN_GDN_HEARTBEAT_TIMEOUT" := "abc" ]} slow_host in
  ~ validated_at_construction self w0
  /\ fst (ping self (snd (__init__ self w0))) = Raise ValueError.
Proof.
  intros self. split.
  - intros Hval. destruct (Hval ValueError) as [e' He'].
    + left. vm_compute. reflexivity.
    + vm_compute in He'. discriminate He'.
  - vm_compute. reflexivity.
Qed.

Lemma durations_witness :
  let self := bridge {[ "SHOTGUN_GDN_HEARTBEAT_TIMEOUT" := "abc" ]} slow_host in
  SHOTGUN_GDN_RESPONSE_TIMEOUT (cls self) = PyFloat f300_0
  /\ SHOTGUN_GDN_HEARTBEAT_TIMEOUT (cls self) = PyStr "abc"
  /\ fst (__init__ self w0) = Ok tt
  /\ ping self w0 = (Raise ValueError, w0).
Proof.
  destruct (durations_read_at_class_definition_converted_at_call
              {[ "SHOTGUN_GDN_HEARTBEAT_TIMEOUT" := "abc" ]} slow_host 0 w0)
    as (Hr & Hh & Hinit & Hping & _).
  intros self. split; [exact Hr | split; [exact Hh | split; [exact Hinit | ]]].
  apply Hping. vm_compute. reflexivity.
Defined.

(** C5: the two messages of the specification, received by a bridge
    that has just been constructed. *)
Lemma inbound_message_witness :
  let w := snd (__init__ (bridge ∅ slow_host) w0) in
  w_signals
    (snd (receive "logging" (json_object2 "level" "warning" "message" "disk full") w))
  = [logging_received (PyStr "warning") (PyStr "disk full")]
  /\ w_signals (snd (receive "command" "42" w)) = [command_received 42].
Proof.
  intros w.
  assert (Hconn : connected w) by (apply init_connected; reflexivity).
  assert (Hlp : json_loads (json_object2 "level" "warning" "message" "disk full")
                = Ok (PyDict [(PyStr "level", PyStr "warning");
                              (PyStr "message", PyStr "disk full")]))
    by (vm_compute; reflexivity).
  assert (Hcp : json_loads "42" = Ok (PyInt 42)) by (vm_compute; reflexivity).
  split.
  - exact (proj2 (inbound_message_publishes_one_event _ _ _ w Hconn
                    (wf_logging _ _ "warning" "disk full" Hlp eq_refl eq_refl))).
  - exact (proj2 (inbound_message_publishes_one_event _ _ _ w Hconn (wf_command _ _ Hcp))).
Defined.

(** C6: the default durations, a ping answered after two seconds and a
    call answered after 301: both methods return. *)
Lemma guarded_methods_witness :
  fst (ping (bridge ∅ slow_host) w0) = Ok tt
  /\ w_thread_errors (snd (ping (bridge ∅ slow_host) w0))
     = [RPCTimeoutError "Ping timed out."]
  /\ fst (_wait_for_response (bridge ∅ slow_host) 5 w0) = Ok (PyInt 5)
  /\ w_thread_errors (snd (_wait_for_response (bridge ∅ slow_host) 5 w0))
     = [RPCTimeoutError "Timed out waiting for response."].
Proof.
  assert (Hh : py_float (SHOTGUN_GDN_HEARTBEAT_TIMEOUT (cls (bridge ∅ slow_host))) = Ok f0_5)
    by (vm_compute; reflexivity).
  assert (Hr : py_float (SHOTGUN_GDN_RESPONSE_TIMEOUT (cls (bridge ∅ slow_host))) = Ok f300_0)
    by (vm_compute; reflexivity).
  destruct (guarded_methods_after_deadline (bridge ∅ slow_host) 5 f0_5 f300_0
              (second / 2) (300 * second) w0
              Hh Hr eq_refl eq_refl eq_refl eq_refl)
    as [[Hp Hpe] [Hw Hwe]].
  split; [exact Hp | split; [exact Hpe | split; [exact Hw | exact Hwe]]].
Defined.

(** C7: no document, a document never saved, a saved document. *)
Lemma get_active_document_path_witness :
  fst (get_active_document_path (bridge ∅ slow_host) w0) = Ok None
  /\ fst (get_active_document_path (bridge ∅ unsaved_host) w0) = Ok None
  /\ fst (get_active_document_path (bridge ∅ saved_host) w0) = Ok (Some "/projects/shot.psd").
Proof.
  split; [ | split].
  - exact (proj1 (get_active_document_path_tolerates_host_failure (bridge ∅ slow_host) w0)
             _ eq_refl).
  - exact (proj1 (proj2 (proj2 (get_active_document_path_tolerates_host_failure
                                  (bridge ∅ unsaved_host) w0)))
             _ (RuntimeError "The document has not yet been saved") eq_refl
             (or_introl eq_refl)).
  - exact (proj2 (proj2 (proj2 (get_active_document_path_tolerates_host_failure
                                  (bridge ∅ saved_host) w0)))
             _ _ _ eq_refl eq_refl eq_refl).
Defined.

(** C8: a list of commands that encodes, and a value that does not. *)
Lemma senders_witness :
  w_sent (snd (send_commands (PyList [PyInt 1; PyStr "publish"]) w0))
  = [("set_commands", Some (CPythonRuntime.text
                              (CPythonRuntime.chars "[1, " ++ quote "publish"
                               ++ CPythonRuntime.chars "]")))]
  /\ send_commands (PyObject "set") w0 = (Raise TypeError, w0)
  /\ w_sent (snd (send_unknown_context w0)) = [("set_unknown_context", None)].
Proof.
  destruct (senders_emit_one_named_message PyNone PyNone (PyList [PyInt 1; PyStr "publish"])
              PyNone PyNone PyNone w0) as (_ & Hgood & _ & _ & _ & Hbare & _).
  destruct (senders_emit_one_named_message PyNone PyNone (PyObject "set")
              PyNone PyNone PyNone w0) as (_ & Hbad & _).
  split; [ | split].
  - exact (proj1 (proj2 Hgood)).
  - exact Hbad.
  - exact (proj1 (proj2 Hbare)).
Defined.

(** C10: [log_message("info", "hello")], and what the inbound handler
    would make of that payload. *)
Lemma log_message_witness :
  w_sent (snd (log_message (PyStr "info") (PyStr "hello") w0))
  = [("log_message",
      Some (CPythonRuntime.text
              (CPythonRuntime.chars "{" ++ quote "level" ++ CPythonRuntime.chars ": "
               ++ quote "info" ++ CPythonRuntime.chars ", " ++ quote "msg"
               ++ CPythonRuntime.chars ": " ++ quote "hello" ++ CPythonRuntime.chars "}")))].
Proof.
  destruct (log_message_payload_keys (PyStr "info") (PyStr "hello") (quote "info")
              (quote "hello") w0 eq_refl eq_refl) as (_ & _ & _ & Hsent).
  rewrite Hsent. reflexivity.
Defined.

(** ** The runtime at a few inputs *)

Example float_of_str_accepts :
  float_of_str "0.5" = Some f0_5
  /\ float_of_str "  3e2 " = Some f300_0
  /\ float_of_str "3_00." = Some f300_0
  /\ float_of_str "-Infinity" = Some (S754_infinity true)
  /\ float_of_str "nan" = Some S754_nan.
Proof. vm_compute. auto 6. Qed.

Example float_of_str_rejects :
  float_of_str "abc" = None
  /\ float_of_str "3__00" = None
  /\ float_of_str "0x10" = None
  /\ float_of_str "1e" = None
  /\ float_of_str "." = None.
Proof. vm_compute. auto 6. Qed.

Example int_of_str_examples :
  int_of_str " +1_000 " = Some 1000
  /\ int_of_str "-007" = Some (-7)
  /\ int_of_str "4.0" = None
  /\ int_of_str EmptyString = None.
Proof. vm_compute. auto. Qed.

Example py_int_truncates :
  py_int (PyFloat (CPythonRuntime.float_of_decimal false 47 (-1))) = Ok 4
  /\ py_int (PyFloat (CPythonRuntime.float_of_decimal true 47 (-1))) = Ok (-4)
  /\ py_int (PyFloat S754_nan) = Raise ValueError
  /\ py_int PyNone = Raise TypeError.
Proof. vm_compute. auto. Qed.

Example json_loads_accepts :
  json_loads " [1, -2.5e-1, null, true, [], {}] "
  = Ok (PyList [PyInt 1; PyFloat (CPythonRuntime.float_of_decimal true 25 (-2));
                PyNone; PyBool true; PyList []; PyDict []])
  /\ json_loads (json_object2 "a" "x" "a" "y") = Ok (PyDict [(PyStr "a", PyStr "y")]).
Proof. vm_compute. auto. Qed.

Example json_loads_rejects :
  json_loads "01" = Raise ValueError
  /\ json_loads "[1,]" = Raise ValueError
  /\ json_loads "1 2" = Raise ValueError
  /\ json_loads "nul" = Raise ValueError
  /\ json_loads EmptyString = Raise ValueError.
Proof. vm_compute. auto 6. Qed.

Example json_dumps_numbers :
  json_dumps (PyFloat f0_5) = Ok "0.5"
  /\ json_dumps (PyFloat f300_0) = Ok "300.0"
  /\ json_dumps (PyFloat (CPythonRuntime.float_of_decimal false 1 (-1))) = Ok "0.1"
  /\ json_dumps (PyFloat (CPythonRuntime.float_of_decimal false 1 16)) = Ok "1e+16"
  /\ json_dumps (PyFloat (CPythonRuntime.float_of_decimal false 1 (-5))) = Ok "1e-05"
  /\ json_dumps (PyList [PyInt (-12); PyNone; PyBool false]) = Ok "[-12, null, false]".
Proof. vm_compute. auto 7. Qed.

Example json_dumps_rejects :
  json_dumps (PyList [PyInt 1; PyObject "set"]) = Raise TypeError
  /\ json_dumps (PyDict [(PyList [], PyInt 1)]) = Raise TypeError.
Proof. vm_compute. auto. Qed.

Example wait_timeout_examples :
  wait_timeout f0_5 = WaitFor 500000000
  /\ wait_timeout (CPythonRuntime.float_of_decimal false 1 (-1)) = WaitFor 100000000
  /\ wait_timeout (CPythonRuntime.float_of_decimal false 1 (-10)) = WaitFor 1
  /\ wait_timeout (CPythonRuntime.float_of_decimal true 1 0) = WaitNow
  /\ wait_timeout (CPythonRuntime.float_of_decimal false 9223372036854775 (-6))
     = WaitFor 9223372036854774784
  /\ wait_timeout (CPythonRuntime.float_of_decimal false 9223372036854776 (-6))
     = WaitRefused ValueError
  /\ wait_timeout (CPythonRuntime.float_of_decimal false 1 10) = WaitRefused OverflowError.
Proof. vm_compute. auto 8. Qed.

(** * Further properties *)

(** ** The timeout decorator, for every duration *)

Section GuardFacts.
Context `{PyRuntime}.

Lemma idle_timers_rest (tie : bool) (now : Z) (ts : list timer) :
  forallb (fun t => negb (active t)) ts = true ->
  map (run_thread tie now) ts = ts /\ flat_map (run_errors tie now) ts = [].
Proof.
  induction ts as [ | t ts IH]; cbn [forallb map flat_map]; [auto | ].
  intros Hall. apply andb_prop in Hall. destruct Hall as [Ht Hts].
  destruct (IH Hts) as [IHm IHe]. rewrite IHm, IHe.
  unfold run_thread, run_errors, expired, active in *.
  destruct (tm_state t); try discriminate Ht; auto.
Qed.

Lemma fires_shift (tie : bool) (clock wait elapsed : Z) :
  (clock + wait <? clock + elapsed) || ((clock + wait =? clock + elapsed) && tie)
  = fires tie wait elapsed.
Proof.
  unfold fires.
  replace (clock + wait <? clock + elapsed) with (wait <? elapsed)
    by (destruct (Z.ltb_spec wait elapsed);
        [symmetry; apply Z.ltb_lt | symmetry; apply Z.ltb_ge]; lia).
  replace (clock + wait =? clock + elapsed) with (wait =? elapsed)
    by (destruct (Z.eqb_spec wait elapsed);
        [symmetry; apply Z.eqb_eq | symmetry; apply Z.eqb_neq]; lia).
  reflexivity.
Qed.

(** The timer of a guarded call, once the call is over. *)
Lemma guard_timer_end (d : spec_float) (msg : string) (tie : bool) (clock elapsed : Z) :
  let t := Timer d (_handle_timeout msg) (started_state clock d) in
  set_state (cancel_state (tm_state (run_thread tie (clock + elapsed) t)))
    (run_thread tie (clock + elapsed) t)
  = Timer d (_handle_timeout msg) (guard_state d tie elapsed)
  /\ start_errors d ++ run_errors tie (clock + elapsed) t = guard_report d msg tie elapsed.
Proof.
  unfold started_state, start_errors, guard_state, guard_report, wait_length,
    run_thread, run_errors, expired.
  destruct (wait_timeout d) as [ | ns | ]; cbn.
  - pose proof (fires_shift tie clock 0 elapsed) as Hshift.
    rewrite Z.add_0_r in Hshift. rewrite Hshift.
    destruct (fires tie 0 elapsed); auto.
  - rewrite fires_shift. destruct (fires tie ns elapsed); auto.
  - auto.
Qed.

(** A guarded call in a world where no timer is waiting. *)
Lemma timeout_on_idle {A} (seconds : pyval) (d : spec_float) (msg : string)
    (func : call A) (w : world) :
  py_float seconds = Ok d ->
  idle w ->
  timeout seconds msg func w
  = (call_outcome func,
     World (w_clock w + call_elapsed func)
       (w_timers w
        ++ [Timer d (_handle_timeout msg) (guard_state d (w_tie_fires w) (call_elapsed func))])
       (w_thread_errors w ++ guard_report d msg (w_tie_fires w) (call_elapsed func))
       (w_tie_fires w) (S (w_calls w)) (w_log w) (w_sent w) (w_signals w) (w_handlers w)).
Proof.
  intros Hd Hidle. rewrite (timeout_run _ _ _ _ _ Hd).
  destruct (idle_timers_rest (w_tie_fires w) (w_clock w + call_elapsed func) _ Hidle)
    as [Hm He].
  destruct (guard_timer_end d msg (w_tie_fires w) (w_clock w) (call_elapsed func))
    as [Ht Hr].
  rewrite Hm, He, Ht. cbn [app]. rewrite <- app_assoc, Hr. reflexivity.
Qed.

Lemma guard_state_not_active (d : spec_float) (tie : bool) (elapsed : Z) (fn : result unit) :
  active (Timer d fn (guard_state d tie elapsed)) = false.
Proof.
  unfold active, guard_state. cbn.
  destruct (wait_length d) as [wait | ]; [destruct (fires tie wait elapsed) | ]; reflexivity.
Qed.

Lemma idle_after_guard (ts : list timer) (d : spec_float) (fn : result unit) (tie : bool)
    (elapsed : Z) :
  forallb (fun t => negb (active t)) ts = true ->
  forallb (fun t => negb (active t)) (ts ++ [Timer d fn (guard_state d tie elapsed)]) = true.
Proof.
  intros Hidle. rewrite forallb_app, Hidle. cbn.
  rewrite guard_state_not_active. reflexivity.
Qed.

(** X1. Whatever the duration (positive, zero, negative, infinite,
    not a number), as long as [float] accepts it, a guarded call ends
    exactly as the callable ends, after invoking it once; it touches
    neither the log, nor the transport, nor the signals.  In particular
    a call that ends with an RPCTimeoutError got it from the callable. *)
Theorem timeout_outcome_is_the_callables {A} (seconds : pyval) (d : spec_float)
    (msg : string) (func : call A) (w : world) :
  py_float seconds = Ok d ->
  let r := timeout seconds msg func w in
  fst r = call_outcome func
  /\ (forall m, fst r = Raise (RPCTimeoutError m) ->
      call_outcome func = Raise (RPCTimeoutError m))
  /\ w_calls (snd r) = S (w_calls w)
  /\ w_clock (snd r) = w_clock w + call_elapsed func
  /\ w_log (snd r) = w_log w
  /\ w_sent (snd r) = w_sent w
  /\ w_signals (snd r) = w_signals w
  /\ w_handlers (snd r) = w_handlers w.
Proof.
  intros Hd r. subst r. rewrite (timeout_run _ _ _ _ _ Hd). cbn.
  repeat split. intros m Hm. exact Hm.
Qed.

(** X2. A guarded call never leaves its timer waiting: in a world
    where no timer waits, the call adds one timer, which ends fired,
    cancelled or (when its wait was refused) crashed, and afterwards
    again no timer waits.  This holds for every duration [float]
    accepts and for callables that return as for those that raise. *)
Theorem timeout_leaves_no_timer_waiting {A} (seconds : pyval) (d : spec_float)
    (msg : string) (func : call A) (w : world) :
  py_float seconds = Ok d ->
  idle w ->
  let r := timeout seconds msg func w in
  (exists st,
     w_timers (snd r) = w_timers w ++ [Timer d (_handle_timeout msg) st]
     /\ (st = Fired \/ st = Cancelled \/ st = Crashed))
  /\ idle (snd r).
Proof.
  intros Hd Hidle r. subst r. rewrite (timeout_on_idle _ _ _ _ _ Hd Hidle).
  cbn [snd w_timers]. split.
  - exists (guard_state d (w_tie_fires w) (call_elapsed func)). split; [reflexivity | ].
    unfold guard_state. destruct (wait_length d) as [wait | ]; [ | auto].
    destruct (fires (w_tie_fires w) wait (call_elapsed func)); auto.
  - unfold idle. cbn [w_timers]. apply idle_after_guard, Hidle.
Qed.


(** X4. Two guarded calls, one after the other, do not interfere: the
    timer of the first, being over, does nothing during the second.
    Starting where no timer waits, the second call ends as its callable
    ends, the reports are those of the first call followed by those of
    the second, and no timer waits afterwards. *)
Theorem consecutive_guards_do_not_interfere {A B} (seconds1 seconds2 : pyval)
    (d1 d2 : spec_float) (msg1 msg2 : string) (func1 : call A) (func2 : call B)
    (w : world) :
  py_float seconds1 = Ok d1 ->
  py_float seconds2 = Ok d2 ->
  idle w ->
  let r1 := timeout seconds1 msg1 func1 w in
  let r2 := timeout seconds2 msg2 func2 (snd r1) in
  fst r2 = call_outcome func2
  /\ w_thread_errors (snd r2)
     = w_thread_errors w
       ++ guard_report d1 msg1 (w_tie_fires w) (call_elapsed func1)
       ++ guard_report d2 msg2 (w_tie_fires w) (call_elapsed func2)
  /\ w_timers (snd r2)
     = w_timers w
       ++ [Timer d1 (_handle_timeout msg1)
             (guard_state d1 (w_tie_fires w) (call_elapsed func1));
           Timer d2 (_handle_timeout msg2)
             (guard_state d2 (w_tie_fires w) (call_elapsed func2))]
  /\ idle (snd r2).
Proof.
  intros Hd1 Hd2 Hidle r1 r2. subst r1 r2.
  rewrite (timeout_on_idle _ _ _ func1 _ Hd1 Hidle). cbn [snd].
  assert (Hidle1 : idle
            (World (w_clock w + call_elapsed func1)
               (w_timers w
                ++ [Timer d1 (_handle_timeout msg1)
                      (guard_state d1 (w_tie_fires w) (call_elapsed func1))])
               (w_thread_errors w
                ++ guard_report d1 msg1 (w_tie_fires w) (call_elapsed func1))
               (w_tie_fires w) (S (w_calls w)) (w_log w) (w_sent w) (w_signals w)
               (w_handlers w))).
  { unfold idle. cbn [w_timers]. apply idle_after_guard, Hidle. }
  rewrite (timeout_on_idle _ _ _ func2 _ Hd2 Hidle1).
  cbn [fst snd w_thread_errors w_timers w_tie_fires].
  repeat split.
  - rewrite <- app_assoc. reflexivity.
  - rewrite <- app_assoc. reflexivity.
  - unfold idle. cbn [w_timers]. apply idle_after_guard, idle_after_guard, Hidle.
Qed.
End GuardFacts.

(** ** The senders *)

Section SenderFacts.
Context `{PyRuntime}.

Lemma run_send_wire (c : send_call) (w : world) :
  match wire c with
  | Ok m => fst (run_send c w) = Ok tt /\ w_sent (snd (run_send c w)) = w_sent w ++ [m]
  | Raise e => run_send c w = (Raise e, w)
  end.
Proof.
  destruct c; cbn [wire run_send]; unfold encoded, log_message, send_commands,
    send_context_display, send_context_thumbnail, send_log_file_path,
    send_unknown_context, context_about_to_change, bind, lift, log_call, io_emit;
    try match goal with
        | |- context [json_dumps ?v] => destruct (json_dumps v)
        end; cbn; auto.
Qed.

(** X5. [log_message] writes nothing to the log, whether the encoding
    succeeds or fails (the method is itself the sink of log records),
    while every other sender writes exactly one debug record when its
    argument encodes (with the encoded text for the commands, the
    thumbnail and the log file path, without it for the context
    display) and none when it does not; the two senders without
    argument always write theirs. *)
Theorem log_message_does_not_log (level msg commands context_display
    context_thumbnail log_file : pyval) (w : world) :
  w_log (snd (log_message level msg w)) = w_log w
  /\ w_log (snd (send_commands commands w))
     = w_log w
       ++ match json_dumps commands with
          | Ok text => [debug "Sending commands: %s" (Some (PyStr text))]
          | Raise _ => []
          end
  /\ w_log (snd (send_context_display context_display w))
     = w_log w
       ++ match json_dumps context_display with
          | Ok _ => [debug "Sending context display." None]
          | Raise _ => []
          end
  /\ w_log (snd (send_context_thumbnail context_thumbnail w))
     = w_log w
       ++ match json_dumps context_thumbnail with
          | Ok text => [debug "Sending context thumb path: %s" (Some (PyStr text))]
          | Raise _ => []
          end
  /\ w_log (snd (send_log_file_path log_file w))
     = w_log w
       ++ match json_dumps log_file with
          | Ok text => [debug "Sending log file path: %s" (Some (PyStr text))]
          | Raise _ => []
          end
  /\ w_log (snd (send_unknown_context w))
     = w_log w ++ [debug "Alerting js that there is no context" None]
  /\ w_log (snd (context_about_to_change w))
     = w_log w ++ [debug "Sending context about to change message." None].
Proof.
  unfold log_message, send_commands, send_context_display, send_context_thumbnail,
    send_log_file_path, send_unknown_context, context_about_to_change,
    bind, lift, log_call, io_emit.
  split; [destruct (json_dumps (log_data level msg)); reflexivity | ].
  split; [destruct (json_dumps commands); cbn; rewrite ?app_nil_r; reflexivity | ].
  split; [destruct (json_dumps context_display); cbn; rewrite ?app_nil_r; reflexivity | ].
  split; [destruct (json_dumps context_thumbnail); cbn; rewrite ?app_nil_r; reflexivity | ].
  split; [destruct (json_dumps log_file); cbn; rewrite ?app_nil_r; reflexivity | ].
  split; reflexivity.
Qed.

(** X6. Senders called one after the other put their messages on the
    wire in the order of the calls.  The sequence stops at the first
    call whose argument does not encode, with the encoder's exception;
    the messages of the calls before it have left and stay sent. *)
Theorem sends_leave_in_call_order (cs : list send_call) (w : world) :
  fst (run_sends cs w)
  = match snd (wires cs) with
    | None => Ok tt
    | Some e => Raise e
    end
  /\ w_sent (snd (run_sends cs w)) = w_sent w ++ fst (wires cs).
Proof.
  revert w. induction cs as [ | c cs IH]; intros w; cbn [run_sends wires].
  - cbn. rewrite app_nil_r. auto.
  - unfold bind. pose proof (run_send_wire c w) as Hc.
    destruct (wire c) as [m | e].
    + destruct Hc as [Hok Hsent].
      destruct (run_send c w) as [[[] | e'] w1]; cbn [fst snd] in *; [ | discriminate Hok].
      destruct (IH w1) as [IH1 IH2]. cbn [fst snd]. rewrite IH1, IH2, Hsent.
      rewrite <- app_assoc. auto.
    + rewrite Hc. cbn. rewrite app_nil_r. auto.
Qed.
End SenderFacts.

(** ** The forwarding handlers *)

Section HandlerFacts.
Context `{PyRuntime}.

Lemma dict_get_missing (items : list (pyval * pyval)) (k : string) :
  has_key k items = false -> dict_get items k = PyNone.
Proof.
  unfold has_key, dict_get. induction items as [ | entry items IH]; cbn; [reflexivity | ].
  intros Hno. apply orb_false_elim in Hno. destruct Hno as [Hentry Hrest].
  rewrite Hentry. exact (IH Hrest).
Qed.

Lemma py_int_of_payload (v : pyval) (n : Z) :
  py_int v = Ok n <-> int_of_payload v n.
Proof.
  split.
  - destruct v as [ | [ | ] | z | [sg | sg | | sg m e] | s | l | items | c]; cbn;
      try discriminate; intros Hn.
    all: try (destruct (int_of_str s) as [k | ] eqn:Hs; [ | discriminate Hn]).
    all: inversion Hn; subst; constructor; try assumption.
  - intros Hp. destruct Hp; cbn; try reflexivity.
    match goal with Hs : int_of_str _ = Some _ |- _ => rewrite Hs end. reflexivity.
Qed.

Lemma connected_handlers (w w' : world) :
  w_handlers w' = w_handlers w -> connected w -> connected w'.
Proof. unfold connected. intros ->. auto. Qed.

Lemma receive_well_formed (name response : string) (signal : qt_signal) (w : world) :
  connected w ->
  well_formed name response signal ->
  fst (receive name response w) = Ok tt
  /\ w_signals (snd (receive name response w)) = w_signals w ++ [signal]
  /\ w_handlers (snd (receive name response w)) = w_handlers w.
Proof.
  intros Hconn Hwf. unfold connected, registrations in Hconn.
  repeat match goal with
         | Hf : Forall _ (_ :: _) |- _ => inversion Hf; subst; clear Hf
         end.
  cbn [fst snd] in *. unfold receive.
  destruct Hwf as [response items level message Hp Hlv Hmsg | response n Hp
                   | response | response
                   | response items path Hp Hpath | response items Hp Hpath
                   | response n Hp];
    match goal with
    | Hh : w_handlers w !! ?n = Some _ |- context [w_handlers w !! ?n] => rewrite Hh
    end;
    cbn [run_handler];
    unfold _forward_logging, _forward_command, _forward_run_tests, _forward_state_request,
      _forward_active_document_changed, _forward_gdn_hwnd, bind, lift, log_call,
      signal_emit;
    try rewrite Hp; cbn; rewrite ?Hlv, ?Hmsg, ?Hpath; auto.
Qed.

(** X7. A forwarding handler emits at most one signal: exactly one
    when it returns, none when it raises.  Whatever the payload, it
    sends nothing on the transport, registers nothing, starts no timer
    and does not block. *)
Theorem handler_emits_at_most_one_signal (h : handler) (response : string) (w : world) :
  let r := run_handler h response w in
  ((fst r = Ok tt /\ exists signal, w_signals (snd r) = w_signals w ++ [signal])
   \/ (exists e, fst r = Raise e /\ w_signals (snd r) = w_signals w))
  /\ w_sent (snd r) = w_sent w
  /\ w_handlers (snd r) = w_handlers w
  /\ w_timers (snd r) = w_timers w
  /\ w_clock (snd r) = w_clock w
  /\ w_calls (snd r) = w_calls w.
Proof.
  destruct h; cbn [run_handler];
    unfold _forward_logging, _forward_command, _forward_run_tests, _forward_state_request,
      _forward_active_document_changed, _forward_gdn_hwnd, bind, lift, log_call,
      signal_emit; cbn.
  - destruct (json_loads response) as [v | e]; cbn; [ | split; [right; eauto | auto]].
    destruct (py_get v "level") as [lv | e]; cbn; [ | split; [right; eauto | auto]].
    destruct (py_get v "message") as [m | e]; cbn; [ | split; [right; eauto | auto]].
    split; [left; eauto | auto].
  - destruct (json_loads response) as [v | e]; cbn; [ | split; [right; eauto | auto]].
    destruct (py_int v) as [n | e]; cbn; [ | split; [right; eauto | auto]].
    split; [left; eauto | auto].
  - split; [left; eauto | auto].
  - split; [left; eauto | auto].
  - destruct (json_loads response) as [v | e]; cbn; [ | split; [right; eauto | auto]].
    destruct (py_get v "active_document_path") as [pth | e]; cbn;
      [ | split; [right; eauto | auto]].
    split; [left; eauto | auto].
  - destruct (json_loads response) as [v | e]; cbn; [ | split; [right; eauto | auto]].
    destruct (py_int v) as [n | e]; cbn; [ | split; [right; eauto | auto]].
    split; [left; eauto | auto].
Qed.

(** X8. The command and the window-handle handlers convert the
    decoded payload with [int]: besides an integer, a boolean, a
    finite float (cut towards zero) and a text that reads as an integer
    are accepted, and the signal carries the resulting integer; either
    handler, when it returns, has decoded one of these. *)
Theorem command_payload_is_converted_with_int (response : string) (v : pyval)
    (w : world) :
  json_loads response = Ok v ->
  (forall n, int_of_payload v n ->
     _forward_command response w
     = (Ok tt, set_signals (w_signals w ++ [command_received n])
                 (set_log (w_log w ++ [debug "Emitting command_received signal." None]) w))
     /\ _forward_gdn_hwnd response w
        = (Ok tt, set_signals (w_signals w ++ [gdn_hwnd n])
                    (set_log (w_log w ++ [debug "Emitting gdn_hwnd_changed signal." None]) w)))
  /\ (fst (_forward_command response w) = Ok tt -> exists n, int_of_payload v n)
  /\ (fst (_forward_gdn_hwnd response w) = Ok tt -> exists n, int_of_payload v n).
Proof.
  intros Hv. unfold _forward_command, _forward_gdn_hwnd, bind, lift, log_call, signal_emit.
  cbn. rewrite Hv. cbn. split; [ | split].
  - intros n Hn. apply py_int_of_payload in Hn. rewrite Hn. cbn. auto.
  - destruct (py_int v) as [n | e] eqn:Hn; cbn; [ | discriminate].
    intros _. exists n. apply py_int_of_payload, Hn.
  - destruct (py_int v) as [n | e] eqn:Hn; cbn; [ | discriminate].
    intros _. exists n. apply py_int_of_payload, Hn.
Qed.

(** X9. A window-handle or active-document payload that fails to
    decode makes its handler raise, like the command and logging
    handlers: the exception of [json.loads], of [int] or of [get]
    leaves the handler after its routine debug line, and no signal is
    emitted.  (The payload is not disregarded by these two.) *)
Theorem hwnd_and_document_decode_failure_is_raised (hwnd_payload document_payload : string)
    (eh ed : exn) (w : world) :
  decode_command hwnd_payload = Raise eh ->
  decode_document document_payload = Raise ed ->
  _forward_gdn_hwnd hwnd_payload w
  = (Raise eh, set_log (w_log w ++ [debug "Emitting gdn_hwnd_changed signal." None]) w)
  /\ _forward_active_document_changed document_payload w
     = (Raise ed,
        set_log (w_log w ++ [debug "Emitting active_document_changed signal." None]) w).
Proof.
  unfold decode_command, decode_document, _forward_gdn_hwnd,
    _forward_active_document_changed, bind, lift, log_call, signal_emit.
  intros Hh Hd. cbn. split.
  - destruct (json_loads hwnd_payload) as [v | e]; cbn.
    + rewrite Hh. reflexivity.
    + inversion Hh; subst. reflexivity.
  - destruct (json_loads document_payload) as [v | e]; cbn.
    + rewrite Hd. reflexivity.
    + inversion Hd; subst. reflexivity.
Qed.

(** X10. A key that is missing from an object payload is no failure:
    [get] gives [None] and the handler emits with it.  A logging
    payload without "message" is forwarded with the level and [None],
    an active-document payload without "active_document_path" is
    forwarded as [None]. *)
Theorem missing_key_is_forwarded_as_none (logging_payload document_payload : string)
    (litems ditems : list (pyval * pyval)) (w : world) :
  json_loads logging_payload = Ok (PyDict litems) ->
  json_loads document_payload = Ok (PyDict ditems) ->
  has_key "message" litems = false ->
  has_key "active_document_path" ditems = false ->
  (fst (_forward_logging logging_payload w) = Ok tt
   /\ w_signals (snd (_forward_logging logging_payload w))
      = w_signals w ++ [logging_received (dict_get litems "level") PyNone])
  /\ (fst (_forward_active_document_changed document_payload w) = Ok tt
      /\ w_signals (snd (_forward_active_document_changed document_payload w))
         = w_signals w ++ [active_document_changed PyNone]).
Proof.
  intros Hl Hd Hnl Hnd.
  unfold _forward_logging, _forward_active_document_changed, bind, lift, log_call,
    signal_emit. cbn. rewrite Hl, Hd. cbn.
  rewrite (dict_get_missing _ _ Hnl), (dict_get_missing _ _ Hnd). auto.
Qed.

(** X14. Well-formed messages received one after the other are all
    forwarded, one signal each, in the order of their arrival. *)
Theorem signals_follow_delivery_order (messages : list (string * string))
    (signals : list qt_signal) (w : world) :
  connected w ->
  Forall2 (fun message signal => well_formed (fst message) (snd message) signal)
    messages signals ->
  fst (deliver messages w) = Ok tt
  /\ w_signals (snd (deliver messages w)) = w_signals w ++ signals.
Proof.
  intros Hconn Hall. revert w Hconn.
  induction Hall as [ | message signal messages signals Hwf Hall IH]; intros w Hconn;
    cbn [deliver].
  - cbn. rewrite app_nil_r. auto.
  - unfold bind.
    destruct (receive_well_formed _ _ _ w Hconn Hwf) as (Hok & Hsig & Hh).
    destruct (receive (fst message) (snd message) w) as [[[] | e] w1];
      cbn [fst snd] in *; [ | discriminate Hok].
    destruct (IH w1 (connected_handlers _ _ Hh Hconn)) as [IH1 IH2].
    rewrite IH1, IH2, Hsig, <- app_assoc. auto.
Qed.
End HandlerFacts.

(** ** The constructor and the host queries *)

Section ConstructorFacts.
Context `{PyRuntime}.

(** X11. When the base constructor ends well, the constructor
    registers its six callbacks, each under its name, over what the
    base class had registered, and leaves every other name as it was;
    it logs three debug records (the two durations as read, and the
    set-up line), sends nothing and emits nothing.  When the base
    constructor raises, that exception is the constructor's and the
    bridge has registered and logged nothing. *)
Theorem init_registers_the_six_callbacks (self : GDNBridge) (w : world) :
  (forall w1, Communicator_init (base self) w = (Ok tt, w1) ->
     fst (__init__ self w) = Ok tt
     /\ (forall name,
           w_handlers (snd (__init__ self w)) !! name
           = match registered_handler name with
             | Some h => Some h
             | None => w_handlers w1 !! name
             end)
     /\ w_log (snd (__init__ self w)) = w_log w1 ++ init_log (cls self)
     /\ w_sent (snd (__init__ self w)) = w_sent w1
     /\ w_signals (snd (__init__ self w)) = w_signals w1)
  /\ (forall e w1, Communicator_init (base self) w = (Raise e, w1) ->
        __init__ self w = (Raise e, w1)).
Proof.
  unfold __init__, bind, log_call, io_on. split.
  - intros w1 ->. cbn. repeat split.
    + intros name. unfold registered_handler, registrations. cbn [List.find fst snd].
      destruct (String.eqb_spec name "logging") as [-> | Hn1];
        [simplify_map_eq; reflexivity | ].
      destruct (String.eqb_spec name "command") as [-> | Hn2];
        [simplify_map_eq; reflexivity | ].
      destruct (String.eqb_spec name "run_tests") as [-> | Hn3];
        [simplify_map_eq; reflexivity | ].
      destruct (String.eqb_spec name "state_requested") as [-> | Hn4];
        [simplify_map_eq; reflexivity | ].
      destruct (String.eqb_spec name "active_document_changed") as [-> | Hn5];
        [simplify_map_eq; reflexivity | ].
      destruct (String.eqb_spec name "gdn_hwnd") as [-> | Hn6];
        [simplify_map_eq; reflexivity | ].
      simplify_map_eq. reflexivity.
    + unfold init_log, debug. rewrite <- !app_assoc. reflexivity.
  - intros e w1 ->. reflexivity.
Qed.

(** X12. [get_active_document] never raises: it returns what reading
    the active document gives, and [None] when the reading raises, in
    which case it logs one warning on the module's logger.  The context
    manager is left on both ways. *)
Theorem get_active_document_never_raises (self : GDNBridge) (w : world) :
  (forall doc, activeDocument (base self) = Ok doc ->
     get_active_document self w
     = (Ok doc, silence_exit (base self) (silence_enter (base self) w)))
  /\ (forall e, activeDocument (base self) = Raise e ->
        get_active_document self w
        = (Ok None,
           silence_exit (base self)
             (set_log
                (w_log (silence_enter (base self) w)
                 ++ [LogRecord module_logger WARNING
                       "Failed to get Active Document from GDN" None])
                (silence_enter (base self) w))))
  /\ exists doc, fst (get_active_document self w) = Ok doc.
Proof.
  unfold get_active_document, response_logging_silenced, try_except, bind, lift, ret,
    log_call.
  repeat split.
  - intros doc ->. reflexivity.
  - intros e ->. reflexivity.
  - destruct (activeDocument (base self)) as [doc | e]; cbn; eauto.
Qed.


End ConstructorFacts.

(** * Executions of the further properties *)

(** X1: a duration that is not a number. *)
Lemma timeout_outcome_witness :
  fst (timeout (PyStr "nan") "Ping timed out." (Call second (Ok (PyInt 3))) w0)
  = Ok (PyInt 3).
Proof.
  assert (Hd : py_float (PyStr "nan") = Ok S754_nan) by (vm_compute; reflexivity).
  exact (proj1 (timeout_outcome_is_the_callables (PyStr "nan") S754_nan "Ping timed out."
                  (Call second (Ok (PyInt 3))) w0 Hd)).
Defined.

(** X2: half a second allowed, two seconds taken, and the callable
    raises. *)
Lemma timeout_leaves_no_timer_waiting_witness :
  idle (snd (timeout (PyFloat f0_5) "Ping timed out."
               (Call (2 * second) (@Raise unit (RuntimeError "lost"))) w0)).
Proof.
  exact (proj2 (timeout_leaves_no_timer_waiting (PyFloat f0_5) f0_5 "Ping timed out."
                  (Call (2 * second) (@Raise unit (RuntimeError "lost"))) w0
                  eq_refl eq_refl)).
Defined.


(** X4: a slow ping, then a slow call. *)
Lemma consecutive_guards_witness :
  w_thread_errors
    (snd (_wait_for_response (bridge ∅ slow_host) 5
            (snd (ping (bridge ∅ slow_host) w0))))
  = [RPCTimeoutError "Ping timed out."; RPCTimeoutError "Timed out waiting for response."].
Proof.
  assert (Hh : py_float (PyFloat f0_5) = Ok f0_5) by reflexivity.
  assert (Hr : py_float (PyFloat f300_0) = Ok f300_0) by reflexivity.
  destruct (consecutive_guards_do_not_interfere (PyFloat f0_5) (PyFloat f300_0)
              f0_5 f300_0 "Ping timed out." "Timed out waiting for response."
              (Call (2 * second) (Ok tt)) (Call (301 * second) (Ok (PyInt 5))) w0
              Hh Hr eq_refl) as (_ & Herr & _).
  exact Herr.
Defined.

(** X5: a log record sent to the other side, a list of commands, and
    commands that do not encode. *)
Lemma log_message_does_not_log_witness :
  w_log (snd (log_message (PyStr "info") (PyStr "hello") w0)) = []
  /\ w_log (snd (send_commands (PyList []) w0))
     = [debug "Sending commands: %s" (Some (PyStr "[]"))]
  /\ w_log (snd (send_commands (PyObject "set") w0)) = [].
Proof.
  destruct (log_message_does_not_log (PyStr "info") (PyStr "hello") (PyList [])
              PyNone PyNone PyNone w0) as (Hlog & Hcmd & _).
  destruct (log_message_does_not_log (PyStr "info") (PyStr "hello") (PyObject "set")
              PyNone PyNone PyNone w0) as (_ & Hbad & _).
  split; [exact Hlog | split; [exact Hcmd | exact Hbad]].
Defined.

(** X6: the second of three sends does not encode. *)
Lemma sends_leave_in_call_order_witness :
  fst (run_sends [Send_unknown_context; Send_commands (PyObject "set");
                  Context_about_to_change] w0) = Raise TypeError
  /\ w_sent (snd (run_sends [Send_unknown_context; Send_commands (PyObject "set");
                             Context_about_to_change] w0))
     = [("set_unknown_context", None)].
Proof.
  exact (sends_leave_in_call_order
           [Send_unknown_context; Send_commands (PyObject "set"); Context_about_to_change]
           w0).
Defined.

(** X8: the command payloads [4.7] and [true]. *)
Lemma command_payload_witness :
  w_signals (snd (_forward_command "4.7" w0)) = [command_received 4]
  /\ w_signals (snd (_forward_command "true" w0)) = [command_received 1].
Proof.
  assert (Hf : json_loads "4.7"
               = Ok (PyFloat (S754_finite false 5291729562160333 (-50))))
    by (vm_compute; reflexivity).
  assert (Ht : json_loads "true" = Ok (PyBool true)) by (vm_compute; reflexivity).
  split.
  - rewrite (proj1 (proj1 (command_payload_is_converted_with_int "4.7" _ w0 Hf)
                      _ (int_of_finite false 5291729562160333 (-50)))).
    reflexivity.
  - rewrite (proj1 (proj1 (command_payload_is_converted_with_int "true" _ w0 Ht)
                      _ int_of_true)).
    reflexivity.
Defined.

(** X9: [null] as a window handle, a list as an active document. *)
Lemma hwnd_and_document_decode_failure_witness :
  fst (_forward_gdn_hwnd "null" w0) = Raise TypeError
  /\ fst (_forward_active_document_changed "[1]" w0) = Raise AttributeError.
Proof.
  assert (Hh : decode_command "null" = Raise TypeError) by (vm_compute; reflexivity).
  assert (Hd : decode_document "[1]" = Raise AttributeError) by (vm_compute; reflexivity).
  destruct (hwnd_and_document_decode_failure_is_raised "null" "[1]" TypeError
              AttributeError w0 Hh Hd) as [Hhr Hdr].
  rewrite Hhr, Hdr. split; reflexivity.
Defined.

(** X10: a logging payload with "level" and "source" only. *)
Lemma missing_key_witness :
  w_signals (snd (_forward_logging (json_object2 "level" "info" "source" "js") w0))
  = [logging_received (PyStr "info") PyNone].
Proof.
  assert (Hl : json_loads (json_object2 "level" "info" "source" "js")
               = Ok (PyDict [(PyStr "level", PyStr "info"); (PyStr "source", PyStr "js")]))
    by (vm_compute; reflexivity).
  exact (proj2 (proj1 (missing_key_is_forwarded_as_none _ _ _ _ w0 Hl Hl
                         eq_refl eq_refl))).
Defined.

(** X11: the callbacks after construction. *)
Lemma init_registers_witness :
  w_handlers (snd (__init__ (bridge ∅ slow_host) w0)) !! "command" = Some forward_command
  /\ w_handlers (snd (__init__ (bridge ∅ slow_host) w0)) !! "log_message" = None.
Proof.
  destruct (proj1 (init_registers_the_six_callbacks (bridge ∅ slow_host) w0) w0 eq_refl)
    as (_ & Hreg & _).
  split; [exact (Hreg "command") | exact (Hreg "log_message")].
Defined.

(** X12: no document open. *)
Lemma get_active_document_witness :
  get_active_document (bridge ∅ slow_host) w0
  = (Ok None,
     set_log [LogRecord module_logger WARNING "Failed to get Active Document from GDN" None]
       w0).
Proof.
  exact (proj1 (proj2 (get_active_document_never_raises (bridge ∅ slow_host) w0))
           (RuntimeError "No documents are open") eq_refl).
Defined.


(** X14: a command, a test request and a logging message, in this
    order. *)
Lemma signals_follow_delivery_order_witness :
  w_signals
    (snd (deliver [("command", "42"); ("run_tests", "go");
                   ("logging", json_object2 "level" "warning" "message" "disk full")]
            (snd (__init__ (bridge ∅ slow_host) w0))))
  = [command_received 42; run_tests_request_received;
     logging_received (PyStr "warning") (PyStr "disk full")].
Proof.
  assert (Hconn : connected (snd (__init__ (bridge ∅ slow_host) w0)))
    by (apply init_connected; reflexivity).
  assert (Hlp : json_loads (json_object2 "level" "warning" "message" "disk full")
                = Ok (PyDict [(PyStr "level", PyStr "warning");
                              (PyStr "message", PyStr "disk full")]))
    by (vm_compute; reflexivity).
  assert (Hcp : json_loads "42" = Ok (PyInt 42)) by (vm_compute; reflexivity).
  refine (proj2 (signals_follow_delivery_order _ _ _ Hconn _)).
  constructor; [exact (wf_command "42" 42 Hcp) | ].
  constructor; [exact (wf_run_tests "go") | ].
  constructor; [exact (wf_logging _ _ "warning" "disk full" Hlp eq_refl eq_refl) | ].
  constructor.
Defined.
